(** * GradFile: the records browser of the admin dashboard and the public
    submission form

    A shallow embedding of

    - [src/components/admin/UserRecords.tsx]: [handleDelete], the
      [filteredAndSortedRecords] pipeline ([records.filter(..).sort(..)])
      and [handleExport];
    - the public submission form ([SubmissionForm], [handleSubmit]);
    - the rest of the records browser ([uniqueCampuses], the filter banner
      and its "Clear all filters", the empty states), the system users tab
      ([SystemUsers]), the dashboard ([AdminDashboard]), the search of the
      thesis data tab ([ThesisData]), the login dialog ([LoginModal]) and
      the form object of the public form ([handleInputChange]).

    JavaScript strings are sequences of code units; a [string] here is a
    sequence of code units in the range U+0000..U+00FF (Latin-1), one
    [ascii] per code unit.  A [Date] is its time value, [option Z]
    milliseconds since the epoch, [None] standing for [NaN] (an Invalid
    Date).  What the JavaScript runtime supplies and the repository does not
    define (the date parser beyond the standard format, the local time zone,
    the locale's collation and date rendering) is an interface, [Runtime],
    what the language standard requires of it being stated apart
    ([RuntimeLaws], [LocalTimeLaws]); the theorems hold for every runtime
    that meets the requirements they name, and concrete runtimes
    ([UTC_runtime], and [Zone.runtime] at a fixed offset from UTC) serve
    for the worked scenarios. *)

From Stdlib Require Import ZArith Ascii String Lia Bool.
From stdpp Require Import base list sorting gmap strings pretty.

Local Open Scope Z_scope.

(** ** JavaScript strings *)

Module JsString.

Definition code (c : ascii) : Z := Z.of_N (N_of_ascii c).
Definition unit_of (n : Z) : ascii := ascii_of_N (Z.to_N n).

(** [String.prototype.toLowerCase] on one code unit: A-Z and the Latin-1
    capitals U+00C0..U+00DE (U+00D7, the multiplication sign, apart) move
    up by 32. *)
Definition lower_unit (c : ascii) : ascii :=
  let n := code c in
  if ((65 <=? n) && (n <=? 90)) || ((192 <=? n) && (n <=? 222) && negb (n =? 215))
  then unit_of (n + 32) else c.

Fixpoint toLowerCase (s : string) : string :=
  match s with
  | EmptyString => EmptyString
  | String c s' => String (lower_unit c) (toLowerCase s')
  end.

(** [t] occurs in [s] at position 0. *)
Fixpoint startsWith (s t : string) {struct t} : bool :=
  match t, s with
  | EmptyString, _ => true
  | String _ _, EmptyString => false
  | String b t', String a s' => if Ascii.eqb a b then startsWith s' t' else false
  end.

(** [s.includes(t)]: [t] occurs in [s] at some position. *)
Fixpoint includes (s t : string) : bool :=
  startsWith s t ||
  match s with
  | EmptyString => false
  | String _ s' => includes s' t
  end.

(** WhiteSpace and LineTerminator code units below U+0100: TAB, LF, VT,
    FF, CR, SP and NBSP. *)
Definition is_space (c : ascii) : bool :=
  let n := code c in
  ((9 <=? n) && (n <=? 13)) || (n =? 32) || (n =? 160).

Fixpoint trimStart (s : string) : string :=
  match s with
  | EmptyString => EmptyString
  | String c s' => if is_space c then trimStart s' else s
  end.

Fixpoint trimEnd (s : string) : string :=
  match s with
  | EmptyString => EmptyString
  | String c s' =>
      match trimEnd s' with
      | EmptyString => if is_space c then EmptyString else String c EmptyString
      | t => String c t
      end
  end.

Definition trim (s : string) : string := trimEnd (trimStart s).

(** ToBoolean of a string: the empty string is falsy. *)
Definition truthy (s : string) : bool :=
  match s with EmptyString => false | String _ _ => true end.

(** ToBoolean of a [string | null]. *)
Definition truthy_opt (o : option string) : bool :=
  match o with Some s => truthy s | None => false end.

(** [a || b] for [a : string | null] and [b : string]. *)
Definition or_else (a : option string) (b : string) : string :=
  match a with
  | Some s => if truthy s then s else b
  | None => b
  end.

(** [array.join(sep)] on an array of strings. *)
Fixpoint join (sep : string) (l : list string) : string :=
  match l with
  | [] => EmptyString
  | [x] => x
  | x :: rest => x +:+ sep +:+ join sep rest
  end.

Definition LF : string := String (ascii_of_nat 10) EmptyString.
Definition DQUOTE : string := String (ascii_of_nat 34) EmptyString.

End JsString.

(** ** Dates *)

(** A Date object is determined by its time value. *)
Definition Date := option Z.

(** [a >= b] and [a <= b] on Date objects compare the time values as
    numbers; a comparison with NaN is false. *)
Definition Date_ge (a b : Date) : bool :=
  match a, b with
  | Some x, Some y => y <=? x
  | _, _ => false
  end.

Definition Date_le (a b : Date) : bool :=
  match a, b with
  | Some x, Some y => x <=? y
  | _, _ => false
  end.

(** [a.getTime() - b.getTime()]: NaN when either date is invalid.  The
    difference of two time values is taken exactly; [sort] looks at its sign
    alone, which rounding to a double keeps. *)
Definition Date_diff (a b : Date) : option Z :=
  match a, b with
  | Some x, Some y => Some (x - y)
  | _, _ => None
  end.

(** ** Calendar arithmetic of the Date object (proleptic Gregorian, UTC) *)

Module Calendar.

Definition msPerDay : Z := 86400000.

Definition is_leap (y : Z) : bool :=
  ((y mod 4 =? 0) && negb (y mod 100 =? 0)) || (y mod 400 =? 0).

Definition days_in_month (y m : Z) : Z :=
  if m =? 2 then (if is_leap y then 29 else 28)
  else if (m =? 4) || (m =? 6) || (m =? 9) || (m =? 11) then 30
  else 31.

(** Day number (days since 1970-01-01) of the civil date [y]-[m]-[d],
    [m] in 1..12. *)
Definition days_from_civil (y m d : Z) : Z :=
  let y' := if m <=? 2 then y - 1 else y in
  let era := y' / 400 in
  let yoe := y' - era * 400 in
  let mp := if 2 <? m then m - 3 else m + 9 in
  let doy := (153 * mp + 2) / 5 + d - 1 in
  let doe := yoe * 365 + yoe / 4 - yoe / 100 + doy in
  era * 146097 + doe - 719468.

(** Civil date (year, month 1..12, day) of a day number. *)
Definition civil_from_days (z : Z) : Z * Z * Z :=
  let z' := z + 719468 in
  let era := z' / 146097 in
  let doe := z' - era * 146097 in
  let yoe := (doe - doe / 1460 + doe / 36524 - doe / 146096) / 365 in
  let doy := doe - (365 * yoe + yoe / 4 - yoe / 100) in
  let mp := (5 * doy + 2) / 153 in
  let d := doy - (153 * mp + 2) / 5 + 1 in
  let m := if mp <? 10 then mp + 3 else mp - 9 in
  let y := yoe + era * 400 in
  (if m <=? 2 then y + 1 else y, m, d).

(** Day of the week of a day number, 0 = Sunday. *)
Definition week_day (z : Z) : Z := (z + 4) mod 7.

Definition MakeTime (h mi s ms : Z) : Z :=
  h * 3600000 + mi * 60000 + s * 1000 + ms.

End Calendar.

(** ** The Date Time String Format every runtime must parse *)

Module DateFormat.
Import JsString Calendar.

Definition digit (c : ascii) : option Z :=
  let n := code c in
  if (48 <=? n) && (n <=? 57) then Some (n - 48) else None.

(** Exactly [n] decimal digits at the head of [s]; the number read and
    the rest of the string. *)
Fixpoint digits (n : nat) (acc : Z) (s : string) : option (Z * string) :=
  match n with
  | O => Some (acc, s)
  | S n' =>
      match s with
      | String c s' =>
          match digit c with
          | Some v => digits n' (10 * acc + v) s'
          | None => None
          end
      | EmptyString => None
      end
  end.

(** The code unit [c] at the head of [s]; the rest of the string. *)
Definition expect (c : Z) (s : string) : option string :=
  match s with
  | String a s' => if code a =? c then Some s' else None
  | EmptyString => None
  end.

(** [YYYY-MM-DD] with a month in 01..12 and a day the month has. *)
Definition date_part (s : string) : option (Z * string) :=
  '(y, s) ← digits 4 0 s;
  s ← expect 45 s;
  '(m, s) ← digits 2 0 s;
  s ← expect 45 s;
  '(d, s) ← digits 2 0 s;
  if (1 <=? m) && (m <=? 12) && (1 <=? d) && (d <=? days_in_month y m)
  then Some (days_from_civil y m d * msPerDay, s)
  else None.

(** [HH:mm], [HH:mm:ss] or [HH:mm:ss.sss]; milliseconds into the day. *)
Definition time_part (s : string) : option (Z * string) :=
  '(h, s) ← digits 2 0 s;
  s ← expect 58 s;
  '(mi, s) ← digits 2 0 s;
  '(sec, ms, s) ←
    match expect 58 s with
    | Some s1 =>
        '(sec, s2) ← digits 2 0 s1;
        match expect 46 s2 with
        | Some s3 => '(ms, s4) ← digits 3 0 s3; Some (sec, ms, s4)
        | None => Some (sec, 0, s2)
        end
    | None => Some (0, 0, s)
    end;
  if (h <=? 23) && (mi <=? 59) && (sec <=? 59)
  then Some (MakeTime h mi sec ms, s)
  else None.

(** The UTC offset that closes a date-time: [Z] or [+HH:mm] / [-HH:mm],
    in milliseconds, and nothing after it. *)
Definition offset_part (s : string) : option Z :=
  match s with
  | String c s' =>
      if code c =? 90 then
        match s' with EmptyString => Some 0 | _ => None end
      else
        sign ← (if code c =? 43 then Some 1
                else if code c =? 45 then Some (-1) else None);
        '(h, s1) ← digits 2 0 s';
        s2 ← expect 58 s1;
        '(mi, s3) ← digits 2 0 s2;
        match s3 with
        | EmptyString =>
            if (h <=? 23) && (mi <=? 59)
            then Some (sign * MakeTime h mi 0 0) else None
        | _ => None
        end
  | EmptyString => None
  end.

(** The time value of a string in the standard format whose meaning does
    not depend on the local time zone: a date alone (UTC midnight), or a
    date and a time with an explicit offset.  [None] on every other
    string, where runtimes may differ. *)
Definition parse (s : string) : option Z :=
  '(day, s1) ← date_part s;
  match s1 with
  | EmptyString => Some day
  | String c s2 =>
      if code c =? 84 then
        '(t, s3) ← time_part s2;
        off ← offset_part s3;
        Some (day + t - off)
      else None
  end.

End DateFormat.

(** ** What the JavaScript runtime supplies *)

Class Runtime := {
  (** [Date.parse]: the time value of a string, [None] for NaN. *)
  Date_parse : string -> option Z;
  (** [Date.prototype.toDateString], in the local time zone. *)
  toDateString : Date -> string;
  (** [Date.prototype.toLocaleDateString], in the default locale. *)
  toLocaleDateString : Date -> string;
  (** [String.prototype.localeCompare]: negative, zero or positive. *)
  localeCompare : string -> string -> Z
}.

(** What the language standard fixes of these operations. *)
Class RuntimeLaws (RT : Runtime) : Prop := {
  (** A string in the standard format has the time value the format gives. *)
  Date_parse_format : forall s t, DateFormat.parse s = Some t -> Date_parse s = Some t;
  (** An Invalid Date, and no other, renders as "Invalid Date". *)
  toDateString_NaN : toDateString None = "Invalid Date";
  toDateString_valid : forall t, toDateString (Some t) <> "Invalid Date"
}.

(** ** The data model of [UserRecords.tsx] *)

Record ThesisSubmission := {
  id : string;
  full_name : string;
  user_type : string;
  student_number : option string;
  school : option string;
  campus : string;
  program : option string;
  thesis_title : string;
  submission_date : string
}.

Inductive SortOrder := asc | desc.

Record DateRange := { range_start : string; range_end : string }.

(** The component's filter and sort state ([useState] cells). *)
Record Criteria := {
  searchTerm : string;
  searchField : string;
  filterType : string;
  campusFilter : string;
  dateFilter : string;
  dateRange : DateRange;
  sortBy : string;
  sortOrder : SortOrder
}.

(** The state the component mounts with. *)
Definition initialCriteria : Criteria :=
  {| searchTerm := EmptyString; searchField := "all"; filterType := "all";
     campusFilter := "all"; dateFilter := EmptyString;
     dateRange := {| range_start := EmptyString; range_end := EmptyString |};
     sortBy := "submission_date"; sortOrder := desc |}.

(** ** Arrays *)

(** [Array.prototype.filter]: the elements the callback accepts, in order. *)
Fixpoint Array_filter {A} (f : A -> bool) (l : list A) : list A :=
  match l with
  | [] => []
  | x :: l' => if f x then x :: Array_filter f l' else Array_filter f l'
  end.

(** SortCompare: a comparator result of NaN counts as +0. *)
Definition SortCompare {A} (cmp : A -> A -> option Z) (x y : A) : Z :=
  match cmp x y with Some v => v | None => 0 end.

(** [Array.prototype.sort] with a comparator, as a stable insertion sort:
    [x] goes after the elements that compare strictly below it. *)
Fixpoint sort_insert {A} (cmp : A -> A -> option Z) (x : A) (l : list A) : list A :=
  match l with
  | [] => [x]
  | y :: l' => if SortCompare cmp x y <=? 0 then x :: y :: l'
               else y :: sort_insert cmp x l'
  end.

Fixpoint Array_sort {A} (cmp : A -> A -> option Z) (l : list A) : list A :=
  match l with
  | [] => []
  | x :: l' => sort_insert cmp x (Array_sort cmp l')
  end.

(** The file a click on the export link saves. *)
Record Download := { blob_parts : string; blob_type : string; download : string }.

(** ** The filter and sort pipeline, [filteredAndSortedRecords] *)

Section Engine.
Context {RT : Runtime}.
Import JsString.

Definition new_Date (s : string) : Date := Date_parse s.

Definition matchesSearch (c : Criteria) (record : ThesisSubmission) : bool :=
  if truthy (trim (searchTerm c)) then
    let searchLower := toLowerCase (searchTerm c) in
    if String.eqb (searchField c) "name" then
      includes (toLowerCase (full_name record)) searchLower
    else if String.eqb (searchField c) "id_school" then
      let idSchoolValue :=
        toLowerCase
          (match student_number record with
           | Some s => if truthy s then s else or_else (school record) EmptyString
           | None => or_else (school record) EmptyString
           end) in
      includes idSchoolValue searchLower
    else if String.eqb (searchField c) "program" then
      includes (toLowerCase (or_else (program record) EmptyString)) searchLower
    else if String.eqb (searchField c) "thesis_title" then
      includes (toLowerCase (thesis_title record)) searchLower
    else
      includes (toLowerCase (full_name record)) searchLower ||
      includes (toLowerCase (thesis_title record)) searchLower ||
      includes (toLowerCase (or_else (student_number record) EmptyString)) searchLower ||
      includes (toLowerCase (or_else (school record) EmptyString)) searchLower ||
      includes (toLowerCase (or_else (program record) EmptyString)) searchLower
  else true.

Definition matchesUserType (c : Criteria) (record : ThesisSubmission) : bool :=
  String.eqb (filterType c) "all" ||
  (String.eqb (filterType c) "lpu" && String.eqb (user_type record) "LPU Student") ||
  (String.eqb (filterType c) "non-lpu" && String.eqb (user_type record) "Non-LPU Student").

Definition matchesCampus (c : Criteria) (record : ThesisSubmission) : bool :=
  String.eqb (campusFilter c) "all" || String.eqb (campus record) (campusFilter c).

Definition matchesDate (c : Criteria) (record : ThesisSubmission) : bool :=
  let recordDate := new_Date (submission_date record) in
  if truthy (dateFilter c) then
    let filterDate := new_Date (dateFilter c) in
    String.eqb (toDateString recordDate) (toDateString filterDate)
  else if truthy (range_start (dateRange c)) || truthy (range_end (dateRange c)) then
    let startDate : option Date :=
      if truthy (range_start (dateRange c))
      then Some (new_Date (range_start (dateRange c))) else None in
    let endDate : option Date :=
      if truthy (range_end (dateRange c))
      then Some (new_Date (range_end (dateRange c))) else None in
    match startDate, endDate with
    | Some sd, Some ed => Date_ge recordDate sd && Date_le recordDate ed
    | Some sd, None => Date_ge recordDate sd
    | None, Some ed => Date_le recordDate ed
    | None, None => true
    end
  else true.

(** The callback handed to [filter]. *)
Definition filterCallback (c : Criteria) (record : ThesisSubmission) : bool :=
  matchesSearch c record && matchesUserType c record &&
  matchesCampus c record && matchesDate c record.

Definition neg (v : option Z) : option Z :=
  match v with Some x => Some (- x) | None => None end.

(** The callback handed to [sort]. *)
Definition sortCallback (c : Criteria) (a b : ThesisSubmission) : option Z :=
  let by_date :=
    Date_diff (new_Date (submission_date a)) (new_Date (submission_date b)) in
  let comparison :=
    if String.eqb (sortBy c) "submission_date" then by_date
    else if String.eqb (sortBy c) "full_name" then
      Some (localeCompare (full_name a) (full_name b))
    else if String.eqb (sortBy c) "campus" then
      Some (localeCompare (campus a) (campus b))
    else if String.eqb (sortBy c) "thesis_title" then
      Some (localeCompare (thesis_title a) (thesis_title b))
    else if String.eqb (sortBy c) "user_type" then
      Some (localeCompare (user_type a) (user_type b))
    else by_date in
  match sortOrder c with asc => comparison | desc => neg comparison end.

Definition filteredAndSortedRecords (c : Criteria) (records : list ThesisSubmission)
  : list ThesisSubmission :=
  Array_sort (sortCallback c) (Array_filter (filterCallback c) records).

(** ** [handleExport]: the text handed to the Blob *)

Definition headers : list string :=
  ["Name"; "Type"; "ID/School"; "Campus"; "Program"; "Thesis Title"; "Date"].

(** The seven fields of a record's row, before quoting. *)
Definition exportFields (record : ThesisSubmission) : list string :=
  [ full_name record;
    user_type record;
    match student_number record with
    | Some s => if truthy s then s else or_else (school record) EmptyString
    | None => or_else (school record) EmptyString
    end;
    campus record;
    or_else (program record) EmptyString;
    thesis_title record;
    toLocaleDateString (new_Date (submission_date record)) ].

(** The template literal that wraps a field in double quotes. *)
Definition quoteField (field : string) : string := DQUOTE +:+ field +:+ DQUOTE.

Definition exportRow (record : ThesisSubmission) : string :=
  join "," (map quoteField (exportFields record)).

Definition csvContent (view : list ThesisSubmission) : string :=
  join LF (join "," headers :: map exportRow view).

(** [handleExport] wraps the text of the current view in a Blob and has the
    browser download it. *)
Definition handleExport (c : Criteria) (records : list ThesisSubmission) : Download :=
  {| blob_parts := csvContent (filteredAndSortedRecords c records);
     blob_type := "text/csv";
     download := "thesis_submissions.csv" |}.

End Engine.

(** ** Arrays as objects: the store of array references

    [records.filter(..)] allocates a new array and [.sort(..)] sorts the
    array it is called on in place and returns that same reference.  The
    two callbacks only read their arguments' fields, so a record is kept as
    a value. *)

Abbreviation heap := (gmap nat (list ThesisSubmission)).

Section EngineOnTheHeap.
Context {RT : Runtime}.

Definition heap_filter (f : ThesisSubmission -> bool) (a : nat) (h : heap)
  : option (nat * heap) :=
  l ← h !! a;
  let b := fresh (dom h) in
  Some (b, <[b := Array_filter f l]> h).

Definition heap_sort (cmp : ThesisSubmission -> ThesisSubmission -> option Z)
    (a : nat) (h : heap) : option (nat * heap) :=
  l ← h !! a;
  Some (a, <[a := Array_sort cmp l]> h).

(** [records.filter(..).sort(..)] on the array referenced by [records]. *)
Definition run_filteredAndSortedRecords (c : Criteria) (records : nat) (h : heap)
  : option (nat * heap) :=
  '(filtered, h1) ← heap_filter (filterCallback c) records h;
  heap_sort (sortCallback c) filtered h1.

End EngineOnTheHeap.

(** ** [fetchRecords] and [handleDelete]: component state and effects *)

Inductive Role := Admin | Reader.

(** What a handler does to the outside, in order. *)
Inductive Effect :=
| toast (title description : string) (destructive : bool)
| confirm (message : string)
| console_log (message : string)
| console_error (message : string)
| store_select (table order_by : string) (ascending : bool)
| store_delete (table column value : string).

(** What the outside answers: the user's answer to [confirm], whether the
    delete comes back with an error, and the select's [{ data, error }]
    ([None]: an error; [Some None]: no error and [data] null). *)
Record World := {
  confirm_reply : bool;
  delete_error : bool;
  select_reply : option (option (list ThesisSubmission))
}.

Record State := { records : list ThesisSubmission; loading : bool }.

Definition setRecords (l : list ThesisSubmission) (st : State) : State :=
  {| records := l; loading := loading st |}.

Definition setLoading (b : bool) (st : State) : State :=
  {| records := records st; loading := b |}.

Definition fetch_failed_toast : Effect :=
  toast "Error"
    "Failed to fetch submission records. Please check your connection and try again."
    true.

Definition fetchRecords (w : World) (st : State) : State * list Effect :=
  let st := setLoading true st in
  let request :=
    [console_log "Fetching records from Supabase...";
     store_select "thesis_submissions" "submission_date" false] in
  match select_reply w with
  | None =>
      (setLoading false st,
       request ++ [console_error "Error fetching records:";
                   console_error "Error in fetchRecords:";
                   fetch_failed_toast])
  | Some data =>
      let st := setRecords (default [] data) st in
      let loaded :=
        match data with
        | Some (_ :: _ as l) =>
            [toast "Records Loaded"
               ("Successfully loaded " +:+ pretty (length l) +:+
                " thesis submission records.") false]
        | _ => []
        end in
      (setLoading false st, request ++ loaded)
  end.

Definition access_restricted : Effect :=
  toast "Access Restricted" "You don't have permission to delete records." true.

Definition handleDelete (w : World) (userRole : option Role) (id : string) (st : State)
  : State * list Effect :=
  match userRole with
  | Some Reader => (st, [access_restricted])
  | _ =>
      let asked := [confirm "Are you sure you want to delete this record?"] in
      if negb (confirm_reply w) then (st, asked)
      else
        let deleted := asked ++ [store_delete "thesis_submissions" "id" id] in
        if delete_error w then
          (st, deleted ++ [console_error "Error deleting record:";
                           toast "Error" "Failed to delete record." true])
        else
          let '(st', fetched) := fetchRecords w st in
          (st', deleted ++ [toast "Success" "Record deleted successfully." false]
                ++ fetched)
  end.

(** A call to the remote store. *)
Definition is_store_call (e : Effect) : bool :=
  match e with
  | store_select _ _ _ | store_delete _ _ _ => true
  | _ => false
  end.

(** ** The public form, [SubmissionForm] *)

Module SubmissionForm.

Inductive UserType := lpu | non_lpu.

Module formData.
Record t := {
  fullName : string;
  studentNumber : string;
  school : string;
  campus : string;
  program : string;
  thesisTitle : string
}.
End formData.

(** The row handed to [insert]. *)
Record submissionData := {
  full_name : string;
  user_type : string;
  student_number : option string;
  school : option string;
  campus : string;
  program : option string;
  thesis_title : string;
  submission_date : string
}.

Inductive FormEffect :=
| store_insert (table : string) (row : submissionData)
| form_toast (title description : string) (destructive : bool)
| form_console_error (message : string).

(** The object literal of [handleSubmit]; [now] is
    [new Date().toISOString()]. *)
Definition build (userType : UserType) (f : formData.t) (now : string)
  : submissionData :=
  {| full_name := formData.fullName f;
     user_type := match userType with
                  | lpu => "LPU Student" | non_lpu => "Non-LPU Student" end;
     student_number := match userType with
                       | lpu => Some (formData.studentNumber f) | non_lpu => None end;
     school := match userType with
               | non_lpu => Some (formData.school f) | lpu => None end;
     campus := formData.campus f;
     program := match userType with
                | lpu => Some (formData.program f) | non_lpu => None end;
     thesis_title := formData.thesisTitle f;
     submission_date := now |}.

(** [handleSubmit]: the insert, then the toast its outcome calls for. *)
Definition handleSubmit (insert_error : bool) (userType : UserType)
    (f : formData.t) (now : string) : list FormEffect :=
  store_insert "thesis_submissions" (build userType f now) ::
  (if insert_error then
     [form_console_error "Error submitting record:";
      form_toast "Submission Failed"
        "There was an error submitting your record. Please try again." true]
   else
     [form_toast "Record Submitted"
        "Your thesis record has been successfully submitted." false]).

Definition inserted_rows (l : list FormEffect) : list submissionData :=
  omap (fun e => match e with store_insert _ row => Some row | _ => None end) l.

End SubmissionForm.

(** ** A concrete runtime: the UTC time zone, the en-US date rendering,
    collation by code unit, and no date format beyond the standard one *)

Module UTC.
Import JsString Calendar.

Definition day_name (w : Z) : string :=
  if w =? 0 then "Sun" else if w =? 1 then "Mon" else if w =? 2 then "Tue"
  else if w =? 3 then "Wed" else if w =? 4 then "Thu" else if w =? 5 then "Fri"
  else "Sat".

Definition month_name (m : Z) : string :=
  if m =? 1 then "Jan" else if m =? 2 then "Feb" else if m =? 3 then "Mar"
  else if m =? 4 then "Apr" else if m =? 5 then "May" else if m =? 6 then "Jun"
  else if m =? 7 then "Jul" else if m =? 8 then "Aug" else if m =? 9 then "Sep"
  else if m =? 10 then "Oct" else if m =? 11 then "Nov" else "Dec".

(** At least [n] decimal digits, padded with zeros on the left. *)
Definition padded (n : nat) (v : Z) : string :=
  let s := pretty (Z.abs v) in
  let zeros := String.concat EmptyString (replicate (n - String.length s) "0") in
  (if v <? 0 then "-" else EmptyString) +:+ zeros +:+ s.

Definition toDateString (d : Date) : string :=
  match d with
  | None => "Invalid Date"
  | Some t =>
      let z := t / msPerDay in
      let '(y, m, dd) := civil_from_days z in
      day_name (week_day z) +:+ " " +:+ month_name m +:+ " " +:+
      padded 2 dd +:+ " " +:+ padded 4 y
  end.

Definition toLocaleDateString (d : Date) : string :=
  match d with
  | None => "Invalid Date"
  | Some t =>
      let '(y, m, dd) := civil_from_days (t / msPerDay) in
      pretty m +:+ "/" +:+ pretty dd +:+ "/" +:+ pretty y
  end.

(** Lexicographic order of the code units. *)
Fixpoint localeCompare (a b : string) : Z :=
  match a, b with
  | EmptyString, EmptyString => 0
  | EmptyString, String _ _ => -1
  | String _ _, EmptyString => 1
  | String x a', String y b' =>
      if code x <? code y then -1
      else if code y <? code x then 1
      else localeCompare a' b'
  end.

End UTC.

#[export] Instance UTC_runtime : Runtime := {|
  Date_parse := DateFormat.parse;
  toDateString := UTC.toDateString;
  toLocaleDateString := UTC.toLocaleDateString;
  localeCompare := UTC.localeCompare
|}.

(** ** The state setters the filter controls call *)

Definition setSearchTerm (v : string) (c : Criteria) : Criteria :=
  {| searchTerm := v; searchField := searchField c; filterType := filterType c;
     campusFilter := campusFilter c; dateFilter := dateFilter c;
     dateRange := dateRange c; sortBy := sortBy c; sortOrder := sortOrder c |}.

Definition setDateFilter (v : string) (c : Criteria) : Criteria :=
  {| searchTerm := searchTerm c; searchField := searchField c;
     filterType := filterType c; campusFilter := campusFilter c; dateFilter := v;
     dateRange := dateRange c; sortBy := sortBy c; sortOrder := sortOrder c |}.

Definition setDateRange (v : DateRange) (c : Criteria) : Criteria :=
  {| searchTerm := searchTerm c; searchField := searchField c;
     filterType := filterType c; campusFilter := campusFilter c;
     dateFilter := dateFilter c; dateRange := v; sortBy := sortBy c;
     sortOrder := sortOrder c |}.

(** ** The notions the properties are stated with *)

(** The term is a case-insensitive substring of the field, the way the code
    takes it: the lower-cased term occurs in the lower-cased field.  Both
    texts are lower-cased whole; nothing is assumed of how lower-casing
    treats the parts of a text. *)
Definition ci_substring (term field : string) : Prop :=
  exists pre post,
    JsString.toLowerCase field = pre +:+ JsString.toLowerCase term +:+ post.

(** A field that may be null reads as the empty string. *)
Definition text_of (o : option string) : string := default EmptyString o.

(** The ID/School column: the student number when there is one, else the
    school. *)
Definition id_or_institution (record : ThesisSubmission) : string :=
  if JsString.truthy_opt (student_number record)
  then text_of (student_number record) else text_of (school record).

(** Both dates are valid and the first is no earlier (no later) than the
    second. *)
Definition on_or_after (a b : Date) : Prop :=
  exists x y, a = Some x /\ b = Some y /\ y <= x.

Definition on_or_before (a b : Date) : Prop :=
  exists x y, a = Some x /\ b = Some y /\ x <= y.

(** A filter input that is set and that the runtime cannot parse. *)
Definition malformed `{Runtime} (s : string) : Prop :=
  s <> EmptyString /\ Date_parse s = None.

(** The lines of a text: its stretches between line feeds. *)
Fixpoint lines_from (cur : string) (s : string) : list string :=
  match s with
  | EmptyString => [cur]
  | String c s' =>
      if JsString.code c =? 10 then cur :: lines_from EmptyString s'
      else lines_from (cur +:+ String c EmptyString) s'
  end.

Definition lines (s : string) : list string := lines_from EmptyString s.

(** The record satisfies every predicate of the filter: the conjunction of
    the search, category, campus and date predicates. *)
Definition passes `{Runtime} (c : Criteria) (record : ThesisSubmission) : Prop :=
  matchesSearch c record = true /\ matchesUserType c record = true /\
  matchesCampus c record = true /\ matchesDate c record = true.

#[export] Instance passes_dec `{Runtime} (c : Criteria) (record : ThesisSubmission) :
  Decision (passes c record).
Proof. unfold passes. apply _. Defined.

(** The order [sort] aims at: no element is strictly above the next one. *)
Definition in_order {A} (cmp : A -> A -> option Z) (x y : A) : Prop :=
  SortCompare cmp x y <= 0.

(** ** Sample records and criteria *)

Definition alice : ThesisSubmission :=
  {| id := "1"; full_name := "Alice"; user_type := "LPU Student";
     student_number := Some "2020-00123"; school := None; campus := "Main";
     program := Some "Computer Science"; thesis_title := "A Study";
     submission_date := "2024-02-01T08:30:15.250Z" |}.

Definition bob : ThesisSubmission :=
  {| id := "2"; full_name := "Bob"; user_type := "Non-LPU Student";
     student_number := None; school := Some "Other University"; campus := "Main";
     program := None; thesis_title := "Other Study";
     submission_date := "2024-01-15T02:00:00.000Z" |}.

Definition zed : ThesisSubmission :=
  {| id := "3"; full_name := "Zed"; user_type := "LPU Student";
     student_number := Some "2021-7"; school := None; campus := "LIMA";
     program := Some "Physics"; thesis_title := "Topology";
     submission_date := "2024-01-20T10:00:00.000Z" |}.

Definition with_submission_date (v : string) (r : ThesisSubmission) : ThesisSubmission :=
  {| id := id r; full_name := full_name r; user_type := user_type r;
     student_number := student_number r; school := school r; campus := campus r;
     program := program r; thesis_title := thesis_title r; submission_date := v |}.

Definition by_name_ascending : Criteria :=
  {| searchTerm := EmptyString; searchField := "all"; filterType := "all";
     campusFilter := "all"; dateFilter := EmptyString;
     dateRange := {| range_start := EmptyString; range_end := EmptyString |};
     sortBy := "full_name"; sortOrder := asc |}.

(** Two records whose names and types share their text differently. *)
Definition quoted_name_a : ThesisSubmission :=
  {| id := "4"; full_name := "A" +:+ JsString.DQUOTE +:+ "," +:+ JsString.DQUOTE +:+ "B";
     user_type := "C"; student_number := Some "7"; school := None; campus := "Main";
     program := Some "Physics"; thesis_title := "T";
     submission_date := "2024-01-20T10:00:00.000Z" |}.

Definition quoted_name_b : ThesisSubmission :=
  {| id := "4"; full_name := "A";
     user_type := "B" +:+ JsString.DQUOTE +:+ "," +:+ JsString.DQUOTE +:+ "C";
     student_number := Some "7"; school := None; campus := "Main";
     program := Some "Physics"; thesis_title := "T";
     submission_date := "2024-01-20T10:00:00.000Z" |}.

(** A record whose title runs over two lines. *)
Definition two_line_title : ThesisSubmission :=
  {| id := "5"; full_name := "A"; user_type := "LPU Student";
     student_number := Some "7"; school := None; campus := "Main";
     program := Some "Physics"; thesis_title := "On" +:+ JsString.LF +:+ "Lines";
     submission_date := "2024-01-20T10:00:00.000Z" |}.

(** * The rest of the records browser *)

Definition setFilterType (v : string) (c : Criteria) : Criteria :=
  {| searchTerm := searchTerm c; searchField := searchField c; filterType := v;
     campusFilter := campusFilter c; dateFilter := dateFilter c;
     dateRange := dateRange c; sortBy := sortBy c; sortOrder := sortOrder c |}.

Definition setCampusFilter (v : string) (c : Criteria) : Criteria :=
  {| searchTerm := searchTerm c; searchField := searchField c;
     filterType := filterType c; campusFilter := v; dateFilter := dateFilter c;
     dateRange := dateRange c; sortBy := sortBy c; sortOrder := sortOrder c |}.

Definition setSortBy (v : string) (c : Criteria) : Criteria :=
  {| searchTerm := searchTerm c; searchField := searchField c;
     filterType := filterType c; campusFilter := campusFilter c;
     dateFilter := dateFilter c; dateRange := dateRange c; sortBy := v;
     sortOrder := sortOrder c |}.

Definition setSortOrder (v : SortOrder) (c : Criteria) : Criteria :=
  {| searchTerm := searchTerm c; searchField := searchField c;
     filterType := filterType c; campusFilter := campusFilter c;
     dateFilter := dateFilter c; dateRange := dateRange c; sortBy := sortBy c;
     sortOrder := v |}.

(** The comparison [sort()] makes without a comparator, on strings: by
    code unit, a proper prefix first. *)
Fixpoint code_unit_compare (a b : string) : Z :=
  match a, b with
  | EmptyString, EmptyString => 0
  | EmptyString, String _ _ => -1
  | String _ _, EmptyString => 1
  | String x a', String y b' =>
      if JsString.code x <? JsString.code y then -1
      else if JsString.code y <? JsString.code x then 1
      else code_unit_compare a' b'
  end.

Definition default_compare (a b : string) : option Z := Some (code_unit_compare a b).

(** A [Set] of strings, as the list of its values in insertion order. *)
Definition Set_add (s : list string) (x : string) : list string :=
  if decide (x ∈ s) then s else s ++ [x].

Definition new_Set (l : list string) : list string := foldl Set_add [] l.

(** [Array.from(new Set(records.map(record => record.campus))).sort()] *)
Definition uniqueCampuses (records : list ThesisSubmission) : list string :=
  Array_sort default_compare (new_Set (map campus records)).

(** The condition under which the "Showing N of M records" banner, with
    its "Clear all filters" button, is rendered. *)
Definition filtersActive (c : Criteria) : bool :=
  JsString.truthy (searchTerm c) ||
  negb (String.eqb (filterType c) "all") ||
  negb (String.eqb (campusFilter c) "all") ||
  JsString.truthy (dateFilter c) ||
  JsString.truthy (range_start (dateRange c)) ||
  JsString.truthy (range_end (dateRange c)).

(** The click handler of "Clear all filters". *)
Definition clearAllFilters (c : Criteria) : Criteria :=
  {| searchTerm := EmptyString; searchField := "all"; filterType := "all";
     campusFilter := "all"; dateFilter := EmptyString;
     dateRange := {| range_start := EmptyString; range_end := EmptyString |};
     sortBy := sortBy c; sortOrder := sortOrder c |}.

(** What the list container shows. *)
Inductive ListBody :=
| NoSubmissionsYet
| NoRecordsMatch
| Rows (view : list ThesisSubmission).

(** What the component returns: the spinner while [loading], else the page,
    of which the Export CSV button's [disabled] attribute and the list
    container are kept. *)
Inductive RecordsPage :=
| LoadingRecords
| RecordsPanel (exportDisabled : bool) (listBody : ListBody).

(** The state of the first render: [useState([])] and [useState(true)]. *)
Definition mountState : State := {| records := []; loading := true |}.

Definition render `{Runtime} (c : Criteria) (st : State) : RecordsPage :=
  if loading st then LoadingRecords
  else
    let view := filteredAndSortedRecords c (records st) in
    RecordsPanel
      (length view =? 0)%nat
      (if (length view =? 0)%nat then
         if (length (records st) =? 0)%nat then NoSubmissionsYet else NoRecordsMatch
       else Rows view).

(** The time value of a record's submission date. *)
Definition submission_time `{Runtime} (r : ThesisSubmission) : Date :=
  new_Date (submission_date r).

(** The text holds no line feed. *)
Fixpoint no_line_feed (s : string) : bool :=
  match s with
  | EmptyString => true
  | String c s' => negb (JsString.code c =? 10) && no_line_feed s'
  end.

(** Both submission dates are valid and the first record was submitted no
    later than the second. *)
Definition submitted_no_later `{Runtime} (a b : ThesisSubmission) : Prop :=
  on_or_before (submission_time a) (submission_time b).

(** * The system users tab, [SystemUsers] *)

Module SystemUsers.

Inductive Status := Active | Inactive.

Record SystemUser := {
  id : string;
  user_id : string;
  name : string;
  email : string;
  role : Role;
  status : Status;
  last_login : option string;
  created_at : string
}.

(** The [newUser] state of the Add User form. *)
Module newUser.
Record t := { name : string; email : string; role : Role; status : Status }.
End newUser.

Record State := {
  searchTerm : string;
  showAddUser : bool;
  users : list SystemUser;
  loading : bool;
  newUser : newUser.t
}.

Definition setUsers (v : list SystemUser) (st : State) : State :=
  {| searchTerm := searchTerm st; showAddUser := showAddUser st; users := v;
     loading := loading st; newUser := newUser st |}.

Definition setLoading (v : bool) (st : State) : State :=
  {| searchTerm := searchTerm st; showAddUser := showAddUser st; users := users st;
     loading := v; newUser := newUser st |}.

Definition setShowAddUser (v : bool) (st : State) : State :=
  {| searchTerm := searchTerm st; showAddUser := v; users := users st;
     loading := loading st; newUser := newUser st |}.

Definition setNewUser (v : newUser.t) (st : State) : State :=
  {| searchTerm := searchTerm st; showAddUser := showAddUser st; users := users st;
     loading := loading st; newUser := v |}.

(** The form as it is when empty. *)
Definition blankUser : newUser.t :=
  {| newUser.name := EmptyString; newUser.email := EmptyString;
     newUser.role := Reader; newUser.status := Active |}.

(** What a handler does to the outside, in order. *)
Inductive Call :=
| toast (title description : string) (destructive : bool)
| confirm (message : string)
| console_error (message : string)
| select_users
| insert_user (user_id name email : string) (role : Role) (status : Status)
| delete_user (id : string)
| auth_signUp (email password full_name : string)
| auth_admin_deleteUser (uid : string).

(** What the outside answers.  A call may throw, come back with an error
    (and its message), or come back with its data. *)
Inductive SelectReply :=
| select_throws
| select_error
| select_data (data : option (list SystemUser)).

Inductive SignUpReply :=
| signUp_throws
| signUp_error (message : string)
| signUp_no_user
| signUp_user (uid : string).

Inductive InsertReply := insert_throws | insert_error (message : string) | insert_ok.

Inductive DeleteReply := delete_throws | delete_error | delete_ok.

Record World := {
  confirm_reply : bool;
  select_reply : SelectReply;
  signUp_reply : SignUpReply;
  insert_reply : InsertReply;
  admin_deleteUser_throws : bool;
  delete_reply : DeleteReply
}.

Definition fetch_failed : list Call :=
  [console_error "Error fetching users:"; toast "Error" "Failed to fetch users" true].

Definition fetchUsers (w : World) (st : State) : State * list Call :=
  match select_reply w with
  | select_throws | select_error => (setLoading false st, select_users :: fetch_failed)
  | select_data data => (setLoading false (setUsers (default [] data) st), [select_users])
  end.

(** [users.filter(user => ...)] of the search box. *)
Definition filteredUsers (st : State) : list SystemUser :=
  Array_filter
    (fun user =>
       JsString.includes (JsString.toLowerCase (name user))
                         (JsString.toLowerCase (searchTerm st)) ||
       JsString.includes (JsString.toLowerCase (email user))
                         (JsString.toLowerCase (searchTerm st)))
    (users st).

(** The three figures of the summary cards. *)
Definition totalUsers (st : State) : nat := length (users st).

Definition activeUsers (st : State) : nat :=
  length (Array_filter (fun u => match status u with Active => true | Inactive => false end)
            (users st)).

Definition inactiveUsers (st : State) : nat :=
  length (Array_filter (fun u => match status u with Inactive => true | Active => false end)
            (users st)).

Definition add_failed : list Call :=
  [console_error "Error adding user:"; toast "Error" "Failed to add user" true].

(** [handleAddUser]; [currentUser] is the signed-in user's id, if any. *)
Definition handleAddUser (w : World) (currentUser : option string) (st : State)
  : State * list Call :=
  let nu := newUser st in
  if negb (JsString.truthy (newUser.name nu)) || negb (JsString.truthy (newUser.email nu))
  then (st, [toast "Error" "Please fill in all required fields" true])
  else
    match currentUser with
    | None => (st, [toast "Error" "You must be logged in to add users" true])
    | Some _ =>
        let signUp :=
          [auth_signUp (newUser.email nu) "TempPassword123!" (newUser.name nu)] in
        match signUp_reply w with
        | signUp_throws => (st, signUp ++ add_failed)
        | signUp_error message =>
            (st, signUp ++
                 [console_error "Error creating auth user:";
                  toast "Error"
                    (JsString.or_else (Some message) "Failed to create user account")
                    true])
        | signUp_no_user =>
            (st, signUp ++ [toast "Error" "Failed to create user account" true])
        | signUp_user uid =>
            let inserted :=
              signUp ++ [insert_user uid (newUser.name nu) (newUser.email nu)
                           (newUser.role nu) (newUser.status nu)] in
            match insert_reply w with
            | insert_throws => (st, inserted ++ add_failed)
            | insert_error message =>
                let cleanup :=
                  inserted ++ [console_error "Error adding system user:";
                               auth_admin_deleteUser uid] in
                if admin_deleteUser_throws w then (st, cleanup ++ add_failed)
                else
                  (st, cleanup ++
                       [toast "Error"
                          (JsString.or_else (Some message) "Failed to add user") true])
            | insert_ok =>
                let st1 := setNewUser blankUser (setShowAddUser false st) in
                let '(st2, fetched) := fetchUsers w st1 in
                (st2, inserted ++
                      [toast "Success"
                         "User created successfully. Temporary password: TempPassword123!"
                         false] ++ fetched)
            end
        end
    end.

Definition delete_failed : list Call :=
  [console_error "Error deleting user:"; toast "Error" "Failed to delete user" true].

Definition handleDeleteUser (w : World) (userId : string) (st : State)
  : State * list Call :=
  let asked := [confirm "Are you sure you want to delete this user?"] in
  if negb (confirm_reply w) then (st, asked)
  else
    let deleted := asked ++ [delete_user userId] in
    match delete_reply w with
    | delete_throws | delete_error => (st, deleted ++ delete_failed)
    | delete_ok =>
        let '(st', fetched) := fetchUsers w st in
        (st', deleted ++ [toast "Success" "User deleted successfully" false] ++ fetched)
    end.

(** A call to the authentication service or to the store. *)
Definition is_remote (e : Call) : bool :=
  match e with
  | select_users | insert_user _ _ _ _ _ | delete_user _
  | auth_signUp _ _ _ | auth_admin_deleteUser _ => true
  | _ => false
  end.

End SystemUsers.

(** * The dashboard, [AdminDashboard] *)

Module AdminDashboard.

Inductive TabType := statistics | records | thesis | users.

Record Tab := { id : TabType; label : string; requiredRole : option Role }.

Definition tabs : list Tab :=
  [ {| id := statistics; label := "Statistics"; requiredRole := None |};
    {| id := records; label := "User Records"; requiredRole := None |};
    {| id := thesis; label := "Thesis Data"; requiredRole := Some Admin |};
    {| id := users; label := "System Users"; requiredRole := Some Admin |} ].

Definition TabType_eqb (a b : TabType) : bool :=
  match a, b with
  | statistics, statistics | records, records | thesis, thesis | users, users => true
  | _, _ => false
  end.

(** [userRole === 'Admin'] and [userRole === 'Reader'] *)
Definition is_admin (userRole : option Role) : bool :=
  match userRole with Some Admin => true | _ => false end.

Definition is_reader (userRole : option Role) : bool :=
  match userRole with Some Reader => true | _ => false end.

(** ToBoolean of a role that may be null. *)
Definition has_role (role : option Role) : bool :=
  match role with Some _ => true | None => false end.

(** [tab.requiredRole === 'Admin'], on a tab that may be undefined. *)
Definition requires_admin (tab : option Tab) : bool :=
  match tab with
  | Some t => match requiredRole t with Some Admin => true | _ => false end
  | None => false
  end.

(** [Array.prototype.find] *)
Fixpoint Array_find {A} (f : A -> bool) (l : list A) : option A :=
  match l with
  | [] => None
  | x :: l' => if f x then Some x else Array_find f l'
  end.

Definition availableTabs (userRole : option Role) : list Tab :=
  Array_filter
    (fun tab => negb (has_role (requiredRole tab)) || is_admin userRole)
    tabs.

Definition currentTab (activeTab : TabType) : option Tab :=
  Array_find (fun tab => TabType_eqb (id tab) activeTab) tabs.

(** The effect that sends a user without the Admin role back to the
    statistics tab; the new active tab. *)
Definition redirect (userRole : option Role) (activeTab : TabType) : TabType :=
  if has_role userRole && negb (is_admin userRole) then
    if requires_admin (currentTab activeTab) then statistics else activeTab
  else activeTab.

Inductive Content :=
| AccessRestricted
| StatisticsTab (userRole : option Role)
| UserRecords (userRole : option Role)
| ThesisData
| SystemUsers.

Definition renderContent (activeTab : TabType) (userRole : option Role) : Content :=
  if requires_admin (currentTab activeTab) && negb (is_admin userRole)
  then AccessRestricted
  else
    match activeTab with
    | statistics => StatisticsTab userRole
    | records => UserRecords userRole
    | thesis => ThesisData
    | users => SystemUsers
    end.

Record State := { activeTab : TabType; userRole : option Role; loading : bool }.

Inductive Page :=
| LoadingDashboard
| AccessDenied
| Dashboard (readerBadge : bool) (nav : list Tab) (content : Content).

Definition render (st : State) : Page :=
  if loading st then LoadingDashboard
  else if negb (has_role (userRole st)) then AccessDenied
  else Dashboard (is_reader (userRole st))
         (availableTabs (userRole st))
         (renderContent (activeTab st) (userRole st)).

Inductive Call :=
| toast (title description : string) (destructive : bool)
| console_log (message : string)
| console_error (message : string)
| query_system_users (user_id : string)
| query_profiles (id : string).

(** The answer of the [system_users] query ([maybeSingle]): it throws,
    comes back with an error, with no row, or with the row's role. *)
Inductive RoleReply := role_throws | role_error | role_none | role_row (role : Role).

(** The answer of the [profiles] query: it throws, or comes back with an
    error or not and with no row or with the row's role, which may be
    null. *)
Inductive ProfileReply :=
| profile_throws
| profile_result (error : bool) (data : option (option string)).

Record World := { role_reply : RoleReply; profile_reply : ProfileReply }.

Definition setUserRole (v : option Role) (st : State) : State :=
  {| activeTab := activeTab st; userRole := v; loading := loading st |}.

Definition setLoading (v : bool) (st : State) : State :=
  {| activeTab := activeTab st; userRole := userRole st; loading := v |}.

(** The [catch] block. *)
Definition role_fallback (st : State) (done : list Call) : State * list Call :=
  (setLoading false (setUserRole (Some Reader) st),
   done ++ [console_error "Error fetching user role:"]).

(** [fetchUserRole]; [user] is the signed-in user's id, if any. *)
Definition fetchUserRole (w : World) (user : option string) (st : State)
  : State * list Call :=
  match user with
  | None => (setLoading false st, [])
  | Some uid =>
      let asked := [console_log "Fetching user role for user:"; query_system_users uid] in
      match role_reply w with
      | role_throws => role_fallback st asked
      | role_error =>
          (setLoading false st,
           asked ++ [console_error "Error fetching user role:";
                     toast "Error" "Failed to fetch user permissions" true])
      | role_none =>
          let asked2 :=
            asked ++ [console_log "User not found in system_users, checking profiles table...";
                      query_profiles uid] in
          match profile_reply w with
          | profile_throws => role_fallback st asked2
          | profile_result error data =>
              let logged :=
                if error then [console_error "Error fetching user profile:"] else [] in
              let defaultRole :=
                match data with
                | Some (Some r) => if String.eqb r "admin" then Admin else Reader
                | _ => Reader
                end in
              (setLoading false (setUserRole (Some defaultRole) st),
               asked2 ++ logged ++ [console_log "Setting default role:"])
          end
      | role_row r =>
          (setLoading false (setUserRole (Some r) st),
           asked ++ [console_log "User role found:"])
      end
  end.

(** The state the dashboard mounts with. *)
Definition initialState : State :=
  {| activeTab := statistics; userRole := None; loading := true |}.

End AdminDashboard.

(** * The thesis data tab, [ThesisData] *)

Module ThesisData.

Record ThesisRecord := {
  id : Z;
  barcode : option string;
  thesis_title : option string;
  authors : option (list string);
  department : option string;
  publication_year : Z;
  upload_date : string;
  last_modified : string;
  is_deleted : bool
}.

(** [field?.toLowerCase().includes(term.toLowerCase())], undefined (falsy)
    on a field that is null. *)
Definition field_includes (field : option string) (term : string) : bool :=
  match field with
  | Some s => JsString.includes (JsString.toLowerCase s) (JsString.toLowerCase term)
  | None => false
  end.

(** [authors?.some(author => author.toLowerCase().includes(...))] *)
Definition some_author_includes (authors : option (list string)) (term : string) : bool :=
  match authors with
  | Some l =>
      existsb (fun author =>
                 JsString.includes (JsString.toLowerCase author)
                                   (JsString.toLowerCase term)) l
  | None => false
  end.

Definition filteredTheses (searchTerm : string) (thesesData : list ThesisRecord)
  : list ThesisRecord :=
  Array_filter
    (fun thesis =>
       field_includes (thesis_title thesis) searchTerm ||
       some_author_includes (authors thesis) searchTerm ||
       field_includes (department thesis) searchTerm ||
       field_includes (barcode thesis) searchTerm)
    thesesData.

End ThesisData.

(** * The login dialog, [LoginModal] *)

Module LoginModal.

Record State := { email : string; password : string; loading : bool }.

Inductive Call :=
| signIn (email password : string)
| toast (title description : string) (destructive : bool)
| console_log (message : string)
| console_error (message : string)
| onClose.

(** The description of the "Login Failed" notice; [message] is
    [error?.message]. *)
Definition errorMessage (message : option string) : string :=
  match message with
  | Some m =>
      if JsString.truthy m then
        if JsString.includes m "Invalid login credentials"
        then "Invalid email or password. Please check your credentials."
        else if JsString.includes m "Email not confirmed"
        then "Please check your email and confirm your account before signing in."
        else if JsString.includes m "User not found"
        then "No account found with this email address."
        else m
      else "Invalid credentials. Please try again."
  | None => "Invalid credentials. Please try again."
  end.

(** [handleSubmit]; [signIn_reply] is [None] when the sign-in goes through
    and the thrown error's message otherwise. *)
Definition handleSubmit (signIn_reply : option (option string)) (st : State)
  : State * list Call :=
  let tried := [console_log "Login form submitted for:";
                signIn (email st) (password st)] in
  match signIn_reply with
  | None =>
      ({| email := EmptyString; password := EmptyString; loading := false |},
       tried ++ [toast "Success" "Successfully logged in!" false; onClose])
  | Some message =>
      ({| email := email st; password := password st; loading := false |},
       tried ++ [console_error "Login error:";
                 toast "Login Failed" (errorMessage message) true])
  end.

(** [handleKeyPress] *)
Definition handleKeyPress (key : string) (signIn_reply : option (option string))
    (st : State) : State * list Call :=
  if String.eqb key "Enter" && JsString.truthy (email st) && JsString.truthy (password st)
  then handleSubmit signIn_reply st
  else (st, []).

End LoginModal.

(** * The state of the public form *)

Module FormState.
Import SubmissionForm.

(** The [formData] object, by key. *)
Definition initialFormData : gmap string string :=
  <["fullName" := EmptyString]> (<["studentNumber" := EmptyString]>
  (<["school" := EmptyString]> (<["campus" := EmptyString]>
  (<["program" := EmptyString]> (<["thesisTitle" := EmptyString]> ∅))))).

(** [setFormData(prev => ({ ...prev, [field]: value }))] *)
Definition handleInputChange (field value : string) (prev : gmap string string)
  : gmap string string :=
  <[field := value]> prev.

(** The six properties [handleSubmit] reads. *)
Definition read (fd : gmap string string) : option formData.t :=
  fullName ← fd !! "fullName";
  studentNumber ← fd !! "studentNumber";
  school ← fd !! "school";
  campus ← fd !! "campus";
  program ← fd !! "program";
  thesisTitle ← fd !! "thesisTitle";
  Some {| formData.fullName := fullName; formData.studentNumber := studentNumber;
          formData.school := school; formData.campus := campus;
          formData.program := program; formData.thesisTitle := thesisTitle |}.

(** The key the student number / school input is bound to. *)
Definition idField (userType : UserType) : string :=
  match userType with lpu => "studentNumber" | non_lpu => "school" end.

(** The [value] and the [onChange] of that input. *)
Definition idInputValue (userType : UserType) (fd : gmap string string) : option string :=
  fd !! idField userType.

Definition idInputChange (userType : UserType) (value : string)
    (fd : gmap string string) : gmap string string :=
  handleInputChange (idField userType) value fd.

(** The form after a run of changes, each a key and a value. *)
Definition after_changes (changes : list (string * string)) (fd : gmap string string)
  : gmap string string :=
  foldl (fun prev change => handleInputChange change.1 change.2 prev) fd changes.

End FormState.

(** ** Sample states of the other components *)

Definition blank_form_state : SystemUsers.State :=
  {| SystemUsers.searchTerm := EmptyString; SystemUsers.showAddUser := true;
     SystemUsers.users := []; SystemUsers.loading := false;
     SystemUsers.newUser := SystemUsers.blankUser |}.

Definition filled_form_state : SystemUsers.State :=
  {| SystemUsers.searchTerm := EmptyString; SystemUsers.showAddUser := true;
     SystemUsers.users := []; SystemUsers.loading := false;
     SystemUsers.newUser :=
       {| SystemUsers.newUser.name := "Ann"; SystemUsers.newUser.email := "ann@lpu.edu";
          SystemUsers.newUser.role := Admin;
          SystemUsers.newUser.status := SystemUsers.Active |} |}.

(** A world in which the sign-up goes through and the insert is refused. *)
Definition insert_refused : SystemUsers.World :=
  {| SystemUsers.confirm_reply := true;
     SystemUsers.select_reply := SystemUsers.select_data (Some []);
     SystemUsers.signUp_reply := SystemUsers.signUp_user "u-1";
     SystemUsers.insert_reply := SystemUsers.insert_error "duplicate key";
     SystemUsers.admin_deleteUser_throws := false;
     SystemUsers.delete_reply := SystemUsers.delete_ok |}.

(** A world in which the user has no row in [system_users] and an "admin"
    profile. *)
Definition admin_by_profile : AdminDashboard.World :=
  {| AdminDashboard.role_reply := AdminDashboard.role_none;
     AdminDashboard.profile_reply :=
       AdminDashboard.profile_result false (Some (Some "admin")) |}.

(** The six properties of the form object are set. *)
Definition six_fields (fd : gmap string string) : Prop :=
  is_Some (fd !! "fullName") /\ is_Some (fd !! "studentNumber") /\
  is_Some (fd !! "school") /\ is_Some (fd !! "campus") /\
  is_Some (fd !! "program") /\ is_Some (fd !! "thesisTitle").

(** ** Consistent comparators *)

(** A comparator is consistent on the elements of [l] when, a result of NaN
    counting as +0, every element compares equal to itself, [a] compares
    below [b] exactly when [b] compares above [a], and "not above" is
    transitive.  On such elements the comparator is a total preorder, and
    [Array.prototype.sort] is required to return them sorted by it, elements
    that compare equal in their original order. *)
Definition consistent_on {A} (cmp : A -> A -> option Z) (l : list A) : Prop :=
  (forall a, a ∈ l -> SortCompare cmp a a = 0) /\
  (forall a b, a ∈ l -> b ∈ l ->
     (SortCompare cmp a b < 0 <-> 0 < SortCompare cmp b a)) /\
  (forall a b c, a ∈ l -> b ∈ l -> c ∈ l ->
     SortCompare cmp a b <= 0 -> SortCompare cmp b c <= 0 ->
     SortCompare cmp a c <= 0).

(** ** Calendar days in local time *)

(** The text [toDateString] gives for a day number: "Thu Feb 01 2024". *)
Definition DateString (day : Z) : string :=
  let '(y, m, dd) := Calendar.civil_from_days day in
  UTC.day_name (Calendar.week_day day) +:+ " " +:+ UTC.month_name m +:+ " " +:+
  UTC.padded 2 dd +:+ " " +:+ UTC.padded 4 y.

(** The day number of a time value in local time, [LocalTZA] being the
    offset of local time from UTC at that time, in milliseconds. *)
Definition local_day (LocalTZA : Z -> Z) (t : Z) : Z :=
  (t + LocalTZA t) / Calendar.msPerDay.

(** The value of a run of decimal digits, after the digits read so far. *)
Fixpoint decimal_value (acc : Z) (s : string) : Z :=
  match s with
  | EmptyString => acc
  | String c s' => decimal_value (10 * acc + (JsString.code c - 48)) s'
  end.


(** What the language standard fixes of [toDateString] on a valid date: the
    text of its day in local time. *)
Class LocalTimeLaws (RT : Runtime) (LocalTZA : Z -> Z) : Prop := {
  toDateString_local :
    forall t, toDateString (Some t) = DateString (local_day LocalTZA t)
}.

(** The day number a date alone, [YYYY-MM-DD], names. *)
Definition exact_date_day (s : string) : option Z :=
  match DateFormat.date_part s with
  | Some (t, EmptyString) => Some (t / Calendar.msPerDay)
  | _ => None
  end.

(** A runtime whose local time is at a fixed offset from UTC, in
    milliseconds. *)
Module Zone.

Definition toDateString (offset : Z) (d : Date) : string :=
  match d with
  | None => "Invalid Date"
  | Some t => DateString ((t + offset) / Calendar.msPerDay)
  end.

Definition toLocaleDateString (offset : Z) (d : Date) : string :=
  UTC.toLocaleDateString (option_map (fun t => t + offset) d).

Definition runtime (offset : Z) : Runtime :=
  Build_Runtime DateFormat.parse (toDateString offset) (toLocaleDateString offset)
    UTC.localeCompare.

(** Five hours behind UTC. *)
Definition UTC_minus_5 : Runtime := runtime (-18000000).

End Zone.

(** Criteria with both the exact date and a date range set. *)
Definition exact_date_and_range : Criteria :=
  setDateRange {| range_start := "2024-02-01"; range_end := "2024-02-29" |}
    (setDateFilter "2024-02-01" initialCriteria).

(** * Theorems *)

(** ** The date format and the concrete runtime on examples *)

Example parse_date_only : DateFormat.parse "2024-02-01" = Some 1706745600000.
Proof. reflexivity. Qed.

Example parse_date_time :
  DateFormat.parse "2024-02-01T08:30:15.250Z" = Some 1706776215250.
Proof. reflexivity. Qed.

Example parse_offset :
  DateFormat.parse "2024-02-01T08:30:15+08:00" = Some 1706747415000.
Proof. reflexivity. Qed.

Example parse_rejects :
  DateFormat.parse EmptyString = None /\ DateFormat.parse "not-a-date" = None /\
  DateFormat.parse "2024-02-30" = None /\ DateFormat.parse "2024-13-01" = None.
Proof. repeat split; reflexivity. Qed.

Example civil_roundtrip :
  Calendar.civil_from_days (Calendar.days_from_civil 2024 2 29) = (2024, 2, 29) /\
  Calendar.week_day (Calendar.days_from_civil 2024 2 1) = 4.
Proof. split; reflexivity. Qed.

Example utc_toDateString :
  UTC.toDateString (DateFormat.parse "2024-02-01T08:30:15.250Z") = "Thu Feb 01 2024".
Proof. vm_compute. reflexivity. Qed.

Example utc_toLocaleDateString :
  UTC.toLocaleDateString (DateFormat.parse "2024-02-01T08:30:15.250Z") = "2/1/2024".
Proof. vm_compute. reflexivity. Qed.

Lemma UTC_toDateString_valid t : UTC.toDateString (Some t) <> "Invalid Date".
Proof.
  unfold UTC.toDateString.
  destruct (Calendar.civil_from_days (t / Calendar.msPerDay)) as [[y m] dd].
  unfold UTC.day_name.
  repeat match goal with |- context [if ?b then _ else _] => destruct b end;
    discriminate.
Qed.

#[export] Instance UTC_laws : RuntimeLaws UTC_runtime.
Proof.
  split.
  - intros s t H. exact H.
  - reflexivity.
  - exact UTC_toDateString_valid.
Qed.

(** ** Substring search *)

Section StringFacts.
Import JsString.

Lemma startsWith_spec (s t : string) :
  startsWith s t = true <-> exists post, s = t +:+ post.
Proof.
  revert s. induction t as [|b t IH]; intros s; simpl.
  - split; [intros _; exists s; reflexivity | reflexivity].
  - destruct s as [|a s]; simpl.
    + split; [discriminate | intros [post H]; discriminate].
    + destruct (Ascii.eqb_spec a b) as [->|Hne].
      * rewrite IH. split; intros [post H]; exists post.
        -- now rewrite H.
        -- now inversion H.
      * split; [discriminate | intros [post H]; inversion H; contradiction].
Qed.

Lemma includes_spec (s t : string) :
  includes s t = true <-> exists pre post, s = pre +:+ t +:+ post.
Proof.
  induction s as [|a s IH]; simpl.
  - rewrite orb_false_r, startsWith_spec. split.
    + intros [post H]. exists EmptyString, post. exact H.
    + intros [pre [post H]]. destruct pre; simpl in H; [eauto | discriminate].
  - rewrite orb_true_iff, IH, startsWith_spec. split.
    + intros [[post H] | [pre [post H]]].
      * exists EmptyString, post. exact H.
      * exists (String a pre), post. simpl. now rewrite H.
    + intros [[|c pre] [post H]]; simpl in H.
      * left. eauto.
      * right. inversion H. eauto.
Qed.

Lemma append_assoc (a b c : string) : (a +:+ b) +:+ c = a +:+ (b +:+ c).
Proof.
  induction a as [|x a IH]; [reflexivity|].
  change (String x ((a +:+ b) +:+ c) = String x (a +:+ (b +:+ c))).
  now f_equal.
Qed.

Lemma append_empty_r (s : string) : s +:+ EmptyString = s.
Proof.
  induction s as [|x s IH]; [reflexivity|].
  change (String x (s +:+ EmptyString) = String x s). now rewrite IH.
Qed.

Lemma includes_ci (field term : string) :
  includes (toLowerCase field) (toLowerCase term) = true <-> ci_substring term field.
Proof. apply includes_spec. Qed.

Lemma or_else_empty (o : option string) : or_else o EmptyString = text_of o.
Proof. destruct o as [[|c s]|]; reflexivity. Qed.

Lemma trimEnd_head (c : ascii) (s : string) :
  is_space c = false -> trimEnd (String c s) <> EmptyString.
Proof. intros H. simpl. destruct (trimEnd s); [rewrite H|]; discriminate. Qed.

(** Trimming leaves nothing exactly when every code unit is white space. *)
Lemma trim_empty_iff (s : string) :
  trim s = EmptyString <-> forallb is_space (list_ascii_of_string s) = true.
Proof.
  unfold trim. induction s as [|c s IH]; simpl; [tauto|].
  destruct (is_space c) eqn:Hc; simpl; [exact IH|].
  split; [|discriminate].
  intros H. exfalso. revert H. change (trimEnd (String c s) <> EmptyString).
  now apply trimEnd_head.
Qed.

End StringFacts.

(** ** The search predicate *)

Section SearchPredicate.
Context {RT : Runtime}.
Import JsString.

Lemma truthy_true (s : string) : s <> EmptyString -> truthy s = true.
Proof. destruct s; [contradiction | reflexivity]. Qed.

Lemma truthy_false (s : string) : s = EmptyString -> truthy s = false.
Proof. now intros ->. Qed.

Lemma id_school_value (record : ThesisSubmission) :
  match student_number record with
  | Some s => if truthy s then s else or_else (school record) EmptyString
  | None => or_else (school record) EmptyString
  end = id_or_institution record.
Proof.
  unfold id_or_institution. rewrite or_else_empty.
  destruct (student_number record) as [[|a s]|]; reflexivity.
Qed.

(** A term of white space alone switches the search off. *)
Lemma matchesSearch_blank (c : Criteria) (record : ThesisSubmission) :
  trim (searchTerm c) = EmptyString -> matchesSearch c record = true.
Proof. intros H. unfold matchesSearch. now rewrite H. Qed.

(** C4, as amended.  For every record and every search term: a term that
    is empty once trimmed of white space imposes no constraint, the search
    predicate then holding of every record; for a term that is not, when the
    search field selector is "all" the search predicate holds exactly when
    the term is a case-insensitive substring (the lower-cased term occurs in
    the lower-cased text) of the full name, the thesis title, the student
    number, the school or the program, a null field reading as the empty
    string; and with the selector "name", "id_school", "program" or
    "thesis_title" it holds exactly when the term is a case-insensitive
    substring of that one field (for "id_school": of the student number when
    there is one, else of the school). *)
Theorem matchesSearch_term (c : Criteria) (record : ThesisSubmission) :
  (trim (searchTerm c) = EmptyString -> matchesSearch c record = true) /\
  (trim (searchTerm c) <> EmptyString ->
   (searchField c = "all" ->
      (matchesSearch c record = true <->
         ci_substring (searchTerm c) (full_name record) \/
         ci_substring (searchTerm c) (thesis_title record) \/
         ci_substring (searchTerm c) (text_of (student_number record)) \/
         ci_substring (searchTerm c) (text_of (school record)) \/
         ci_substring (searchTerm c) (text_of (program record)))) /\
   (searchField c = "name" ->
      (matchesSearch c record = true <->
         ci_substring (searchTerm c) (full_name record))) /\
   (searchField c = "id_school" ->
      (matchesSearch c record = true <->
         ci_substring (searchTerm c) (id_or_institution record))) /\
   (searchField c = "program" ->
      (matchesSearch c record = true <->
         ci_substring (searchTerm c) (text_of (program record)))) /\
   (searchField c = "thesis_title" ->
      (matchesSearch c record = true <->
         ci_substring (searchTerm c) (thesis_title record)))).
Proof.
  split.
  - apply matchesSearch_blank.
  - intros Hterm. unfold matchesSearch.
    rewrite (truthy_true _ Hterm), id_school_value, !or_else_empty.
    split; [|split; [|split; [|split]]]; intros Hf; rewrite Hf;
      cbn [String.eqb Ascii.eqb Bool.eqb];
      rewrite ?orb_true_iff, ?includes_ci; tauto.
Qed.

End SearchPredicate.

(** C4 as stated fails on a term of white space: the term " " is not empty
    and occurs, lower-cased, in none of the five lower-cased fields of
    [zed], yet the search predicate holds. *)
Lemma matchesSearch_blank_term_counterexample :
  let c := setSearchTerm " " initialCriteria in
  searchTerm c <> EmptyString /\ searchField c = "all" /\
  matchesSearch c zed = true /\
  ~ (ci_substring (searchTerm c) (full_name zed) \/
     ci_substring (searchTerm c) (thesis_title zed) \/
     ci_substring (searchTerm c) (text_of (student_number zed)) \/
     ci_substring (searchTerm c) (text_of (school zed)) \/
     ci_substring (searchTerm c) (text_of (program zed))).
Proof.
  cbv zeta. split; [discriminate|]. split; [reflexivity|]. split; [reflexivity|].
  rewrite <- !includes_ci. vm_compute. intuition discriminate.
Qed.

Example sort_by_name_scenario :
  map full_name (filteredAndSortedRecords by_name_ascending [zed; bob; alice])
  = ["Alice"; "Bob"; "Zed"].
Proof. vm_compute. reflexivity. Qed.

Example search_alice_scenario :
  filteredAndSortedRecords (setSearchTerm "alice" initialCriteria) [alice; bob]
  = [alice].
Proof. vm_compute. reflexivity. Qed.

(** ** [filter] and [sort] on arrays *)

Section Arrays.
Context {A : Type}.
Implicit Types (l : list A) (cmp : A -> A -> option Z).

Lemma Array_filter_filter (f : A -> bool) l :
  Array_filter f l = filter (fun x => f x = true) l.
Proof.
  induction l as [|x l IH]; [reflexivity|].
  simpl. rewrite filter_cons, IH.
  destruct (f x); case_decide; congruence.
Qed.

Lemma sort_insert_Permutation cmp (x : A) l : sort_insert cmp x l ≡ₚ x :: l.
Proof.
  induction l as [|y l IH]; simpl; [reflexivity|].
  destruct (SortCompare cmp x y <=? 0); [reflexivity|].
  rewrite IH. apply Permutation_swap.
Qed.

Lemma Array_sort_Permutation cmp l : Array_sort cmp l ≡ₚ l.
Proof.
  induction l as [|x l IH]; simpl; [reflexivity|].
  now rewrite sort_insert_Permutation, IH.
Qed.

Lemma sort_insert_Sorted cmp (x : A) l :
  (forall a b, 0 < SortCompare cmp a b -> SortCompare cmp b a <= 0) ->
  Sorted (in_order cmp) l -> Sorted (in_order cmp) (sort_insert cmp x l).
Proof.
  intros Hanti Hl. induction Hl as [|y l Hl IH Hhd]; simpl.
  - repeat constructor.
  - destruct (Z.leb_spec (SortCompare cmp x y) 0) as [Hle|Hgt].
    + constructor; [constructor; assumption | constructor; exact Hle].
    + constructor; [exact IH|].
      destruct Hhd as [|z l' Hyz]; simpl.
      * constructor. apply Hanti, Hgt.
      * destruct (SortCompare cmp x z <=? 0); constructor;
          [apply Hanti, Hgt | exact Hyz].
Qed.

(** With a comparator that never puts two elements strictly above each
    other, the sorted array is in order. *)
Lemma Array_sort_Sorted cmp l :
  (forall a b, 0 < SortCompare cmp a b -> SortCompare cmp b a <= 0) ->
  Sorted (in_order cmp) (Array_sort cmp l).
Proof.
  intros Hanti. induction l as [|x l IH]; simpl; [constructor|].
  now apply sort_insert_Sorted.
Qed.

End Arrays.

(** ** The pipeline keeps exactly the records that pass *)

Section Pipeline.
Context {RT : Runtime}.

Lemma filterCallback_passes (c : Criteria) (record : ThesisSubmission) :
  filterCallback c record = true <-> passes c record.
Proof.
  unfold filterCallback, passes. rewrite !andb_true_iff. tauto.
Qed.

Lemma Array_filter_passes (c : Criteria) (L : list ThesisSubmission) :
  Array_filter (filterCallback c) L = filter (passes c) L.
Proof.
  rewrite Array_filter_filter. apply list_filter_iff.
  intros r. apply filterCallback_passes.
Qed.

Lemma filteredAndSortedRecords_perm (c : Criteria) (L : list ThesisSubmission) :
  filteredAndSortedRecords c L ≡ₚ filter (passes c) L.
Proof.
  unfold filteredAndSortedRecords.
  now rewrite Array_sort_Permutation, Array_filter_passes.
Qed.

Lemma elem_of_filteredAndSortedRecords (c : Criteria) (L : list ThesisSubmission)
    (r : ThesisSubmission) :
  r ∈ filteredAndSortedRecords c L <-> r ∈ L /\ passes c r.
Proof. rewrite filteredAndSortedRecords_perm, list_elem_of_filter. tauto. Qed.

(** C1.  For every record list [L] and every criteria setting, the output
    of the filter and sort pipeline is a rearrangement of the records of
    [L] that satisfy the conjunction of the search, category, campus and
    date predicates, each as many times as it occurs in [L]: it is a
    reordered subsequence of [L], and a record is in the output exactly when
    it is in [L] and passes every predicate. *)
Theorem filteredAndSortedRecords_exact (c : Criteria) (L : list ThesisSubmission) :
  filteredAndSortedRecords c L ≡ₚ filter (passes c) L /\
  filteredAndSortedRecords c L ⊆+ L /\
  (forall r, r ∈ filteredAndSortedRecords c L <-> r ∈ L /\ passes c r).
Proof.
  pose proof (filteredAndSortedRecords_perm c L) as Hperm.
  split; [exact Hperm|]. split.
  - rewrite Hperm. apply sublist_submseteq, sublist_filter.
  - apply elem_of_filteredAndSortedRecords.
Qed.

(** With nothing selected every record passes. *)
Lemma initialCriteria_keeps_all (L : list ThesisSubmission) :
  filteredAndSortedRecords initialCriteria L ≡ₚ L.
Proof.
  unfold filteredAndSortedRecords. rewrite Array_sort_Permutation.
  induction L as [|r L IH]; [reflexivity|]. simpl. now rewrite IH.
Qed.

(** Distinct records stay distinct. *)
Lemma filteredAndSortedRecords_NoDup (c : Criteria) (L : list ThesisSubmission) :
  NoDup L -> NoDup (filteredAndSortedRecords c L).
Proof.
  intros H. rewrite filteredAndSortedRecords_perm. now apply NoDup_filter.
Qed.

End Pipeline.

(** ** The pipeline on the store of arrays *)

Section Frame.
Context {RT : Runtime}.

Lemma heap_filter_spec (f : ThesisSubmission -> bool) (a : nat) (h : heap)
    (l : list ThesisSubmission) :
  h !! a = Some l ->
  exists b, heap_filter f a h = Some (b, <[b := Array_filter f l]> h) /\
            h !! b = None.
Proof.
  intros Ha. unfold heap_filter. rewrite Ha. simpl.
  exists (fresh (dom h)). split; [reflexivity|].
  apply not_elem_of_dom, is_fresh.
Qed.

Lemma heap_sort_spec (cmp : ThesisSubmission -> ThesisSubmission -> option Z)
    (a : nat) (h : heap) (l : list ThesisSubmission) :
  h !! a = Some l -> heap_sort cmp a h = Some (a, <[a := Array_sort cmp l]> h).
Proof. intros Ha. unfold heap_sort. now rewrite Ha. Qed.

(** C5.  For every record list [L], held in the store under the reference
    [records], and every criteria setting, the pipeline runs to the end,
    leaves the array under [records] as it was (the same records in the same
    order) and returns a reference [out] to an array that did not exist
    before, distinct from [records], holding the filtered and sorted view; no
    other array of the store changes. *)
Theorem filteredAndSortedRecords_frame (c : Criteria) (records : nat) (h : heap)
    (L : list ThesisSubmission) :
  h !! records = Some L ->
  exists (out : nat) (h' : heap),
    run_filteredAndSortedRecords c records h = Some (out, h') /\
    h' !! records = Some L /\
    out <> records /\
    h !! out = None /\
    h' !! out = Some (filteredAndSortedRecords c L) /\
    (forall a, a <> out -> h' !! a = h !! a).
Proof.
  intros HL.
  destruct (heap_filter_spec (filterCallback c) records h L HL) as (b & Hf & Hb).
  assert (Hne : b <> records) by (intros ->; congruence).
  exists b, (<[b := filteredAndSortedRecords c L]> h).
  split.
  - unfold run_filteredAndSortedRecords. rewrite Hf. simpl.
    rewrite (heap_sort_spec _ b _ (Array_filter (filterCallback c) L))
      by apply lookup_insert_eq.
    now rewrite insert_insert_eq.
  - split; [now rewrite lookup_insert_ne|].
    split; [exact Hne|]. split; [exact Hb|].
    split; [apply lookup_insert_eq|].
    intros a Ha. now rewrite lookup_insert_ne.
Qed.

End Frame.

Lemma filteredAndSortedRecords_frame_witness :
  ({[ 0%nat := [alice; bob] ]} : heap) !! 0%nat = Some [alice; bob] /\
  exists (out : nat) (h' : heap),
    run_filteredAndSortedRecords initialCriteria 0 {[ 0%nat := [alice; bob] ]}
      = Some (out, h') /\
    h' !! 0%nat = Some [alice; bob] /\
    out <> 0%nat /\
    ({[ 0%nat := [alice; bob] ]} : heap) !! out = None /\
    h' !! out = Some (filteredAndSortedRecords initialCriteria [alice; bob]) /\
    (forall a, a <> out -> h' !! a = ({[ 0%nat := [alice; bob] ]} : heap) !! a).
Proof.
  split; [reflexivity|].
  apply (filteredAndSortedRecords_frame initialCriteria 0
           {[ 0%nat := [alice; bob] ]} [alice; bob]).
  reflexivity.
Defined.

Example sort_runs_in_place :
  heap_sort (sortCallback initialCriteria) 0 {[ 0%nat := [bob; alice] ]}
  = Some (0%nat, {[ 0%nat := [alice; bob] ]}).
Proof. vm_compute. reflexivity. Qed.

(** ** The empty record list *)

Section EmptyView.
Context {RT : Runtime}.

(** C6.  For the empty record list and every criteria setting the pipeline
    gives the empty view, and the export of that view is the header row and
    nothing else: one line, with no record rows. *)
Theorem export_of_empty_view (c : Criteria) :
  filteredAndSortedRecords c [] = [] /\
  blob_parts (handleExport c [])
    = "Name,Type,ID/School,Campus,Program,Thesis Title,Date" /\
  lines (blob_parts (handleExport c []))
    = ["Name,Type,ID/School,Campus,Program,Thesis Title,Date"].
Proof. repeat split; reflexivity. Qed.

End EmptyView.

(** ** The date predicate *)

Section DatePredicate.
Context {RT : Runtime}.
Import JsString.

Lemma Date_ge_spec (a b : Date) : Date_ge a b = true <-> on_or_after a b.
Proof.
  unfold Date_ge, on_or_after. destruct a as [x|], b as [y|].
  - rewrite Z.leb_le. split; [eauto | intros (x' & y' & [= ->] & [= ->] & H); exact H].
  - split; [discriminate | intros (? & ? & _ & H & _); discriminate].
  - split; [discriminate | intros (? & ? & H & _); discriminate].
  - split; [discriminate | intros (? & ? & H & _); discriminate].
Qed.

Lemma Date_le_spec (a b : Date) : Date_le a b = true <-> on_or_before a b.
Proof.
  unfold Date_le, on_or_before. destruct a as [x|], b as [y|].
  - rewrite Z.leb_le. split; [eauto | intros (x' & y' & [= ->] & [= ->] & H); exact H].
  - split; [discriminate | intros (? & ? & _ & H & _); discriminate].
  - split; [discriminate | intros (? & ? & H & _); discriminate].
  - split; [discriminate | intros (? & ? & H & _); discriminate].
Qed.

Lemma matchesDate_exact (c : Criteria) (record : ThesisSubmission) :
  dateFilter c <> EmptyString ->
  matchesDate c record
  = String.eqb (toDateString (new_Date (submission_date record)))
               (toDateString (new_Date (dateFilter c))).
Proof. intros H. unfold matchesDate. now rewrite (truthy_true _ H). Qed.

(** C3.  For every record, when the exact-date filter is unset and a
    date-range bound is set, the date predicate holds exactly when the
    record's submission timestamp is on or after the range start, if a start
    is given, and on or before the range end, if an end is given.  And a
    record submitted on 2024-02-01 is excluded by the range 2024-01-01 to
    2024-01-31, whatever the other criteria and the record's other fields. *)
Theorem date_range_bounds `{!RuntimeLaws RT} (c : Criteria) (record : ThesisSubmission) :
  dateFilter c = EmptyString ->
  range_start (dateRange c) <> EmptyString \/ range_end (dateRange c) <> EmptyString ->
  (matchesDate c record = true <->
     (range_start (dateRange c) <> EmptyString ->
        on_or_after (new_Date (submission_date record))
                    (new_Date (range_start (dateRange c)))) /\
     (range_end (dateRange c) <> EmptyString ->
        on_or_before (new_Date (submission_date record))
                     (new_Date (range_end (dateRange c))))) /\
  (forall c0 r0 L,
     let c1 := setDateFilter EmptyString
                 (setDateRange {| range_start := "2024-01-01";
                                  range_end := "2024-01-31" |} c0) in
     let r1 := with_submission_date "2024-02-01" r0 in
     matchesDate c1 r1 = false /\ r1 ∉ filteredAndSortedRecords c1 L).
Proof.
  intros Hexact Hbound. split.
  - unfold matchesDate. rewrite (truthy_false _ Hexact).
    destruct (range_start (dateRange c)) as [|a s] eqn:Hs;
      destruct (range_end (dateRange c)) as [|b e] eqn:He; simpl.
    + destruct Hbound as [Hb|Hb]; contradiction.
    + rewrite Date_le_spec. split; [intros H; split; [contradiction | auto] |].
      intros [_ H]. now apply H.
    + rewrite Date_ge_spec. split; [intros H; split; [auto | contradiction] |].
      intros [H _]. now apply H.
    + rewrite andb_true_iff, Date_ge_spec, Date_le_spec.
      split; [intros [H1 H2]; split; auto |].
      intros [H1 H2]. split; [now apply H1 | now apply H2].
  - intros c0 r0 L c1 r1.
    assert (Hm : matchesDate c1 r1 = false).
    { unfold matchesDate, c1, r1, new_Date. simpl.
      rewrite (Date_parse_format "2024-02-01" 1706745600000 eq_refl).
      rewrite (Date_parse_format "2024-01-01" 1704067200000 eq_refl).
      rewrite (Date_parse_format "2024-01-31" 1706659200000 eq_refl).
      reflexivity. }
    split; [exact Hm|].
    intros Hin. apply elem_of_filteredAndSortedRecords in Hin.
    destruct Hin as [_ (_ & _ & _ & Hd)]. congruence.
Qed.

(** C7, as amended.  A malformed exact-date value makes the date predicate
    hold for the records whose own submission date does not parse, and for
    no other record; when the exact-date filter is unset, a malformed
    date-range bound makes the date predicate false for every record, which
    the pipeline then leaves out. *)
Theorem malformed_date_fails_closed `{!RuntimeLaws RT}
    (c : Criteria) (record : ThesisSubmission) :
  (malformed (dateFilter c) ->
     (matchesDate c record = true <-> new_Date (submission_date record) = None)) /\
  (dateFilter c = EmptyString ->
   malformed (range_start (dateRange c)) \/ malformed (range_end (dateRange c)) ->
     matchesDate c record = false /\
     forall L, record ∉ filteredAndSortedRecords c L).
Proof.
  split.
  - intros [Hset Hnan]. rewrite (matchesDate_exact c record Hset).
    unfold new_Date. rewrite Hnan, toDateString_NaN, String.eqb_eq.
    destruct (Date_parse (submission_date record)) as [t|].
    + split; [intros H; now apply toDateString_valid in H | discriminate].
    + now rewrite toDateString_NaN.
  - intros Hexact Hbad.
    assert (Hm : matchesDate c record = false).
    { unfold matchesDate, new_Date. rewrite (truthy_false _ Hexact).
      destruct Hbad as [[Hset Hnan]|[Hset Hnan]];
        rewrite (truthy_true _ Hset), Hnan, ?orb_true_r; simpl;
        destruct (truthy _); simpl; unfold Date_ge, Date_le;
        destruct (Date_parse (submission_date record));
        try reflexivity; try (destruct (Date_parse _); reflexivity);
        rewrite ?andb_false_r; reflexivity. }
    split; [exact Hm|].
    intros L Hin. apply elem_of_filteredAndSortedRecords in Hin.
    destruct Hin as [_ (_ & _ & _ & Hd)]. congruence.
Qed.

End DatePredicate.

(** ** The exact date, in local time *)

Section CalendarFacts.
Import Calendar.

Lemma doe_bounds (doe : Z) :
  0 <= doe <= 146096 ->
  0 <= (doe - doe / 1460 + doe / 36524 - doe / 146096) / 365 <= 399 /\
  0 <= doe - (365 * ((doe - doe / 1460 + doe / 36524 - doe / 146096) / 365)
              + (doe - doe / 1460 + doe / 36524 - doe / 146096) / 365 / 4
              - (doe - doe / 1460 + doe / 36524 - doe / 146096) / 365 / 100) <= 365.
Proof. intros H. split; Z.div_mod_to_equations; lia. Qed.

Lemma civil_from_days_bounds (z : Z) :
  1 <= (civil_from_days z).1.2 <= 12 /\ 1 <= (civil_from_days z).2 <= 31.
Proof.
  unfold civil_from_days.
  set (z' := z + 719468). set (era := z' / 146097).
  set (doe := z' - era * 146097).
  assert (Hdoe : 0 <= doe <= 146096) by (subst doe era; Z.div_mod_to_equations; lia).
  destruct (doe_bounds doe Hdoe) as [Hyoe Hdoy].
  set (yoe := (doe - doe / 1460 + doe / 36524 - doe / 146096) / 365) in *.
  set (doy := doe - (365 * yoe + yoe / 4 - yoe / 100)) in *.
  set (mp := (5 * doy + 2) / 153).
  assert (Hmp : 0 <= mp <= 11) by (subst mp; Z.div_mod_to_equations; lia).
  cbv zeta. simpl. split.
  - destruct (Z.ltb_spec mp 10); lia.
  - subst mp. Z.div_mod_to_equations. lia.
Qed.

Lemma days_from_civil_from_days (z : Z) :
  days_from_civil (civil_from_days z).1.1 (civil_from_days z).1.2 (civil_from_days z).2
  = z.
Proof.
  unfold civil_from_days.
  set (z' := z + 719468). set (era := z' / 146097).
  set (doe := z' - era * 146097).
  assert (Hdoe : 0 <= doe <= 146096) by (subst doe era; Z.div_mod_to_equations; lia).
  destruct (doe_bounds doe Hdoe) as [Hyoe Hdoy].
  set (yoe := (doe - doe / 1460 + doe / 36524 - doe / 146096) / 365) in *.
  set (doy := doe - (365 * yoe + yoe / 4 - yoe / 100)) in *.
  set (mp := (5 * doy + 2) / 153).
  assert (Hmp : 0 <= mp <= 11) by (subst mp; Z.div_mod_to_equations; lia).
  set (d := doy - (153 * mp + 2) / 5 + 1).
  set (m := if mp <? 10 then mp + 3 else mp - 9).
  cbv zeta. simpl.
  assert (Hm : (if 2 <? m then m - 3 else m + 9) = mp).
  { subst m. destruct (Z.ltb_spec mp 10).
    - destruct (Z.ltb_spec 2 (mp + 3)); lia.
    - destruct (Z.ltb_spec 2 (mp - 9)); lia. }
  assert (Hy : (if m <=? 2
                then (if m <=? 2 then yoe + era * 400 + 1 else yoe + era * 400) - 1
                else (if m <=? 2 then yoe + era * 400 + 1 else yoe + era * 400))
               = yoe + era * 400) by (destruct (m <=? 2); lia).
  unfold days_from_civil. cbv zeta. rewrite Hy, Hm.
  assert (He : (yoe + era * 400) / 400 = era) by (Z.div_mod_to_equations; lia).
  rewrite He. subst d doy doe.
  replace (yoe + era * 400 - era * 400) with yoe by lia. lia.
Qed.

(** A day number is determined by its civil date. *)
Lemma civil_from_days_inj (z1 z2 : Z) :
  civil_from_days z1 = civil_from_days z2 -> z1 = z2.
Proof.
  intros H. rewrite <- (days_from_civil_from_days z1), <- (days_from_civil_from_days z2).
  now rewrite H.
Qed.

End CalendarFacts.

(** ** The text of a day *)

Section DateStringFacts.
Import JsString Calendar UTC.

Lemma append_length_inj (a b x y : string) :
  String.length a = String.length b -> a +:+ x = b +:+ y -> a = b /\ x = y.
Proof.
  revert b. induction a as [|c a IH]; intros [|d b] Hlen H; try discriminate.
  - auto.
  - change (String c (a +:+ x) = String d (b +:+ y)) in H.
    injection H as -> H. injection Hlen as Hlen.
    destruct (IH b Hlen H) as [-> ->]. auto.
Qed.

Lemma day_name_length (w : Z) : String.length (day_name w) = 3%nat.
Proof.
  unfold day_name.
  repeat match goal with |- context [if ?b then _ else _] => destruct b end;
    reflexivity.
Qed.

Lemma month_name_length (m : Z) : String.length (month_name m) = 3%nat.
Proof.
  unfold month_name.
  repeat match goal with |- context [if ?b then _ else _] => destruct b end;
    reflexivity.
Qed.

Lemma month_name_inj (m1 m2 : Z) :
  1 <= m1 <= 12 -> 1 <= m2 <= 12 -> month_name m1 = month_name m2 -> m1 = m2.
Proof.
  intros H1 H2. unfold month_name.
  repeat match goal with
         | |- context [?a =? ?b] => destruct (Z.eqb_spec a b)
         end; intros H; try discriminate H; lia.
Qed.

Lemma day_of_month_cases (dd : Z) : 1 <= dd <= 31 -> dd = 1 \/ dd = 2 \/ dd = 3 \/ dd = 4 \/ dd = 5 \/ dd = 6 \/ dd = 7 \/ dd = 8 \/ dd = 9 \/ dd = 10 \/ dd = 11 \/ dd = 12 \/ dd = 13 \/ dd = 14 \/ dd = 15 \/ dd = 16 \/ dd = 17 \/ dd = 18 \/ dd = 19 \/ dd = 20 \/ dd = 21 \/ dd = 22 \/ dd = 23 \/ dd = 24 \/ dd = 25 \/ dd = 26 \/ dd = 27 \/ dd = 28 \/ dd = 29 \/ dd = 30 \/ dd = 31.
Proof. lia. Qed.

Lemma padded_day_length (dd : Z) :
  1 <= dd <= 31 -> String.length (padded 2 dd) = 2%nat.
Proof.
  intros H. apply day_of_month_cases in H.
  repeat (destruct H as [->|H]; [vm_compute; reflexivity|]).
  subst. vm_compute. reflexivity.
Qed.

Lemma decimal_value_app (acc : Z) (p s : string) :
  decimal_value acc (p +:+ s) = decimal_value (decimal_value acc p) s.
Proof.
  revert acc. induction p as [|c p IH]; intros acc; [reflexivity|].
  change (String c p +:+ s) with (String c (p +:+ s)). simpl. apply IH.
Qed.

Lemma pretty_N_char_value (x : N) :
  (x < 10)%N -> code (pretty_N_char x) - 48 = Z.of_N x.
Proof.
  intros H.
  assert (Hx : (x = 0 \/ x = 1 \/ x = 2 \/ x = 3 \/ x = 4 \/ x = 5 \/ x = 6 \/
                x = 7 \/ x = 8 \/ x = 9)%N) by lia.
  repeat (destruct Hx as [->|Hx]; [reflexivity|]). now subst.
Qed.

(** The digits [pretty_N_go] puts before its accumulator, and their
    value. *)
Lemma pretty_N_go_value (x : N) (s : string) :
  exists p,
    pretty_N_go x s = p +:+ s /\
    forall acc,
      decimal_value acc p = acc * 10 ^ Z.of_nat (String.length p) + Z.of_N x.
Proof.
  revert s. induction (N.lt_wf_0 x) as [x _ IH]. intros s.
  destruct (N.eq_dec x 0%N) as [->|Hx].
  - exists EmptyString. split; [reflexivity|]. intros acc. simpl. lia.
  - rewrite pretty_N_go_step by lia.
    destruct (IH (x `div` 10)%N) with (s := String (pretty_N_char (x `mod` 10)) s)
      as (p & Hp & Hval).
    { apply N.div_lt; lia. }
    exists (p +:+ String (pretty_N_char (x `mod` 10)) EmptyString). split.
    + rewrite Hp. now rewrite append_assoc.
    + intros acc. rewrite decimal_value_app, Hval. simpl.
      rewrite pretty_N_char_value by (apply N.mod_lt; lia).
      assert (Hlen : String.length (p +:+ String (pretty_N_char (x `mod` 10)) EmptyString)
                     = S (String.length p)).
      { clear. induction p as [|c p IHp]; [reflexivity|].
        change (String c p +:+ ?t) with (String c (p +:+ t)). simpl. now rewrite IHp. }
      rewrite Hlen, Nat2Z.inj_succ, Z.pow_succ_r by lia.
      rewrite N2Z.inj_div, N2Z.inj_mod.
      pose proof (Z.div_mod (Z.of_N x) 10 ltac:(lia)) as Hdm. nia.
Qed.

Lemma decimal_value_pretty (a : Z) : 0 <= a -> decimal_value 0 (pretty a) = a.
Proof.
  intros Ha. destruct a as [|p|p]; [reflexivity| |lia].
  change (pretty (Z.pos p)) with (pretty (N.pos p)).
  unfold pretty, pretty_N. destruct (decide (N.pos p = 0%N)) as [E|_]; [discriminate|].
  destruct (pretty_N_go_value (N.pos p) EmptyString) as (d & Hd & Hval).
  rewrite Hd, append_empty_r, Hval. simpl. lia.
Qed.

Lemma pretty_not_dash (a : Z) (s : string) : 0 <= a -> pretty a <> "-" +:+ s.
Proof.
  intros Ha. destruct a as [|p|p]; [discriminate| |lia].
  change (pretty (Z.pos p)) with (pretty (N.pos p)).
  unfold pretty, pretty_N. destruct (decide (N.pos p = 0%N)) as [E|_]; [discriminate|].
  apply pretty_N_go_ne_dash. discriminate.
Qed.

(** The zeros [padded] puts in front. *)
Lemma zeros_cases (k : nat) :
  String.concat "" (replicate k "0") = EmptyString \/
  exists rest, String.concat "" (replicate k "0") = String "0" rest /\
               forall s, decimal_value 0 (String "0" rest +:+ s) = decimal_value 0 s.
Proof.
  induction k as [|k IH]; [left; reflexivity|]. right.
  destruct k as [|k].
  - exists EmptyString. split; [reflexivity|]. intros s. reflexivity.
  - destruct IH as [E|(rest & E & Hval)].
    + simpl in E. destruct (replicate k "0"); discriminate.
    + exists (String "0" rest). split.
      * change (replicate (S (S k)) "0") with ("0" :: replicate (S k) "0").
        change (String.concat "" ("0" :: replicate (S k) "0"))
          with ("0" +:+ "" +:+ String.concat "" (replicate (S k) "0")).
        now rewrite E.
      * intros s. change (String "0" (String "0" rest) +:+ s)
          with (String "0" (String "0" rest +:+ s)).
        simpl. apply Hval.
Qed.

Lemma padded_inj (n : nat) (v1 v2 : Z) : padded n v1 = padded n v2 -> v1 = v2.
Proof.
  assert (Hdigits : forall v, 0 <= v ->
            decimal_value 0
              (String.concat "" (replicate (n - String.length (pretty v)) "0")
               +:+ pretty v) = v /\
            forall s,
              String.concat "" (replicate (n - String.length (pretty v)) "0")
              +:+ pretty v <> "-" +:+ s).
  { intros v Hv.
    destruct (zeros_cases (n - String.length (pretty v))) as [->|(rest & -> & Hval)].
    - split; [now apply decimal_value_pretty|]. intros s. now apply pretty_not_dash.
    - split; [rewrite Hval; now apply decimal_value_pretty | discriminate]. }
  unfold padded.
  destruct (Z.ltb_spec v1 0) as [H1|H1]; destruct (Z.ltb_spec v2 0) as [H2|H2];
    intros H.
  - apply (inj (String.append "-")) in H.
    apply (f_equal (decimal_value 0)) in H.
    rewrite (proj1 (Hdigits (Z.abs v1) ltac:(lia))) in H.
    rewrite (proj1 (Hdigits (Z.abs v2) ltac:(lia))) in H. lia.
  - symmetry in H. destruct (proj2 (Hdigits (Z.abs v2) ltac:(lia)) _ H).
  - destruct (proj2 (Hdigits (Z.abs v1) ltac:(lia)) _ H).
  - change (EmptyString +:+ ?x) with x in H.
    apply (f_equal (decimal_value 0)) in H.
    rewrite (proj1 (Hdigits (Z.abs v1) ltac:(lia))) in H.
    rewrite (proj1 (Hdigits (Z.abs v2) ltac:(lia))) in H. lia.
Qed.

(** Two days have the same text only when they are the same day. *)
Lemma DateString_inj (z1 z2 : Z) : DateString z1 = DateString z2 -> z1 = z2.
Proof.
  intros H. apply civil_from_days_inj.
  pose proof (civil_from_days_bounds z1) as [Hm1 Hd1].
  pose proof (civil_from_days_bounds z2) as [Hm2 Hd2].
  unfold DateString in H.
  destruct (civil_from_days z1) as [[y1 m1] d1], (civil_from_days z2) as [[y2 m2] d2].
  simpl in Hm1, Hd1, Hm2, Hd2.
  apply append_length_inj in H as [_ H]; [|now rewrite !day_name_length].
  apply (inj (String.append " ")) in H.
  apply append_length_inj in H as [Hm H]; [|now rewrite !month_name_length].
  apply (inj (String.append " ")) in H.
  apply append_length_inj in H as [Hd H]; [|now rewrite !padded_day_length].
  apply (inj (String.append " ")) in H.
  apply month_name_inj in Hm; [|assumption..].
  apply padded_inj in Hd, H. congruence.
Qed.

Lemma DateString_valid (z : Z) : DateString z <> "Invalid Date".
Proof.
  unfold DateString. destruct (civil_from_days z) as [[y m] dd].
  unfold day_name.
  repeat match goal with |- context [if ?b then _ else _] => destruct b end;
    discriminate.
Qed.

Lemma UTC_toDateString_DateString (t : Z) :
  UTC.toDateString (Some t) = DateString (t / msPerDay).
Proof. reflexivity. Qed.

End DateStringFacts.

Lemma Zone_laws (offset : Z) : RuntimeLaws (Zone.runtime offset).
Proof.
  split.
  - intros s t H. exact H.
  - reflexivity.
  - intros t. apply DateString_valid.
Qed.

Lemma Zone_local_time (offset : Z) :
  LocalTimeLaws (Zone.runtime offset) (fun _ => offset).
Proof. split. intros t. reflexivity. Qed.

Lemma UTC_local_time : LocalTimeLaws UTC_runtime (fun _ => 0).
Proof.
  split. intros t. unfold local_day. rewrite Z.add_0_r. reflexivity.
Qed.

Lemma date_part_day (s rest : string) (t : Z) :
  DateFormat.date_part s = Some (t, rest) ->
  exists day, t = day * Calendar.msPerDay.
Proof.
  unfold DateFormat.date_part. intros H.
  repeat match type of H with
         | context [mbind _ ?o] => destruct o as [[? ?]|] eqn:?; simpl in H
         | context [mbind _ ?o] => destruct o eqn:?; simpl in H
         end; try discriminate.
  destruct (_ && _) in H; [|discriminate].
  injection H as <- _. eauto.
Qed.

Lemma exact_date_day_parse (s : string) (day : Z) :
  exact_date_day s = Some day ->
  DateFormat.parse s = Some (day * Calendar.msPerDay).
Proof.
  unfold exact_date_day, DateFormat.parse. intros H.
  destruct (DateFormat.date_part s) as [[t [|c rest]]|] eqn:Hp; try discriminate.
  injection H as <-. simpl.
  destruct (date_part_day _ _ _ Hp) as [day ->].
  now rewrite Z.div_mul by discriminate.
Qed.

Section ExactDate.
Context {RT : Runtime} `{!RuntimeLaws RT} (LocalTZA : Z -> Z)
        `{!LocalTimeLaws RT LocalTZA}.

Lemma toDateString_same_day (t1 t2 : Z) :
  toDateString (Some t1) = toDateString (Some t2) <->
  local_day LocalTZA t1 = local_day LocalTZA t2.
Proof.
  rewrite !toDateString_local. split; [apply DateString_inj | now intros ->].
Qed.

Lemma local_day_of_midnight (day : Z) :
  (0 <= LocalTZA (day * Calendar.msPerDay) < Calendar.msPerDay ->
   local_day LocalTZA (day * Calendar.msPerDay) = day) /\
  (- Calendar.msPerDay <= LocalTZA (day * Calendar.msPerDay) < 0 ->
   local_day LocalTZA (day * Calendar.msPerDay) = day - 1).
Proof.
  unfold local_day, Calendar.msPerDay.
  split; intros Hzone; Z.div_mod_to_equations; lia.
Qed.


End ExactDate.



Example exact_date_over_range :
  let c := setDateRange {| range_start := "2023-01-01"; range_end := "2023-12-31" |}
             (setDateFilter "2024-02-01" initialCriteria) in
  filteredAndSortedRecords c [alice; bob; zed] = [alice].
Proof. vm_compute. reflexivity. Qed.

Lemma date_range_bounds_witness :
  let c := setDateRange {| range_start := "2024-01-01"; range_end := "2024-01-31" |}
             initialCriteria in
  dateFilter c = EmptyString /\
  (range_start (dateRange c) <> EmptyString \/ range_end (dateRange c) <> EmptyString) /\
  (matchesDate c bob = true <->
     (range_start (dateRange c) <> EmptyString ->
        on_or_after (new_Date (submission_date bob))
                    (new_Date (range_start (dateRange c)))) /\
     (range_end (dateRange c) <> EmptyString ->
        on_or_before (new_Date (submission_date bob))
                     (new_Date (range_end (dateRange c))))).
Proof.
  cbv zeta.
  assert (H1 : dateFilter
                 (setDateRange {| range_start := "2024-01-01";
                                  range_end := "2024-01-31" |} initialCriteria)
               = EmptyString) by reflexivity.
  assert (H2 : range_start (dateRange
                 (setDateRange {| range_start := "2024-01-01";
                                  range_end := "2024-01-31" |} initialCriteria))
               <> EmptyString \/
               range_end (dateRange
                 (setDateRange {| range_start := "2024-01-01";
                                  range_end := "2024-01-31" |} initialCriteria))
               <> EmptyString) by (left; discriminate).
  split; [exact H1|]. split; [exact H2|].
  exact (proj1 (date_range_bounds (RT := UTC_runtime)
                  (setDateRange {| range_start := "2024-01-01";
                                   range_end := "2024-01-31" |} initialCriteria)
                  bob H1 H2)).
Defined.

Example date_range_scenario :
  let c := setDateRange {| range_start := "2024-01-01"; range_end := "2024-01-31" |}
             initialCriteria in
  filteredAndSortedRecords c [alice; bob; zed] = [zed; bob].
Proof. vm_compute. reflexivity. Qed.

Lemma malformed_date_fails_closed_witness :
  let c1 := setDateFilter "not-a-date" initialCriteria in
  let c2 := setDateRange {| range_start := "01/2024"; range_end := "2024-01-31" |}
              initialCriteria in
  (malformed (dateFilter c1) /\ matchesDate c1 alice <> true) /\
  (malformed (range_start (dateRange c2)) /\ matchesDate c2 alice = false).
Proof.
  cbv zeta. split.
  - assert (H : malformed (dateFilter (setDateFilter "not-a-date" initialCriteria)))
      by (split; [discriminate | reflexivity]).
    split; [exact H|].
    intros Hm.
    apply (proj1 (malformed_date_fails_closed (RT := UTC_runtime)
                    (setDateFilter "not-a-date" initialCriteria) alice) H) in Hm.
    discriminate Hm.
  - assert (H : malformed (range_start (dateRange
                  (setDateRange {| range_start := "01/2024";
                                   range_end := "2024-01-31" |} initialCriteria))))
      by (split; [discriminate | reflexivity]).
    split; [exact H|].
    exact (proj1 (proj2 (malformed_date_fails_closed (RT := UTC_runtime)
                           (setDateRange {| range_start := "01/2024";
                                            range_end := "2024-01-31" |}
                              initialCriteria) alice)
                        eq_refl (or_introl H))).
Defined.

(** C7 as stated fails on a record whose own submission date does not
    parse: under the malformed exact-date value "not-a-date" the date
    predicate holds for it, and the pipeline keeps it. *)
Lemma malformed_exact_date_counterexample :
  let c := setDateFilter "not-a-date" initialCriteria in
  let r := with_submission_date EmptyString alice in
  malformed (dateFilter c) /\ matchesDate c r = true /\
  filteredAndSortedRecords c [r] = [r].
Proof.
  cbv zeta. split; [split; [discriminate | reflexivity]|].
  split; vm_compute; reflexivity.
Qed.

(** ** Deleting a record *)

(** C8.  For every record id, a delete attempted by an actor whose role is
    Reader is turned down with the access-restricted notice and nothing
    else: no call to the store is made, and the component's state, the
    record list with it, is what it was. *)
Theorem reader_delete_rejected (w : World) (id : string) (st : State) :
  handleDelete w (Some Reader) id st = (st, [access_restricted]) /\
  records (handleDelete w (Some Reader) id st).1 = records st /\
  forallb (fun e => negb (is_store_call e)) (handleDelete w (Some Reader) id st).2
    = true /\
  access_restricted
    = toast "Access Restricted" "You don't have permission to delete records." true.
Proof. repeat split. Qed.

(** Any other actor who confirms does reach the store. *)
Lemma confirmed_delete_reaches_store (w : World) (userRole : option Role)
    (id : string) (st : State) :
  userRole <> Some Reader -> confirm_reply w = true ->
  store_delete "thesis_submissions" "id" id ∈ (handleDelete w userRole id st).2.
Proof.
  intros Hrole Hyes.
  assert (Hgo : (handleDelete w userRole id st).2 =
                (handleDelete w (Some Admin) id st).2).
  { destruct userRole as [[|]|]; [reflexivity | contradiction | reflexivity]. }
  rewrite Hgo. unfold handleDelete. rewrite Hyes. simpl.
  destruct (delete_error w); [|destruct (fetchRecords w st)]; simpl;
    set_solver.
Qed.

(** A delete that is declined or that fails leaves the record list alone. *)
Lemma failed_delete_keeps_records (w : World) (userRole : option Role)
    (id : string) (st : State) :
  confirm_reply w = false \/ delete_error w = true ->
  records (handleDelete w userRole id st).1 = records st.
Proof.
  intros H. unfold handleDelete.
  destruct userRole as [[|]|]; try reflexivity;
    destruct (confirm_reply w), (delete_error w); simpl; try reflexivity;
    destruct H; discriminate.
Qed.

(** ** The public form *)

Section FormInvariants.
Import SubmissionForm.

(** C9.  For every submission the public form builds, the row it inserts
    has exactly one of the student number and the school non-null, as the
    selected category says (LPU: the student number is set and the school is
    null; non-LPU: the school is set and the student number is null), and its
    program is non-null exactly when the category is LPU. *)
Theorem inserted_row_invariants (insert_error : bool) (userType : UserType)
    (f : formData.t) (now : string) :
  inserted_rows (handleSubmit insert_error userType f now) = [build userType f now] /\
  match userType with
  | lpu =>
      user_type (build userType f now) = "LPU Student" /\
      student_number (build userType f now) = Some (formData.studentNumber f) /\
      school (build userType f now) = None
  | non_lpu =>
      user_type (build userType f now) = "Non-LPU Student" /\
      school (build userType f now) = Some (formData.school f) /\
      student_number (build userType f now) = None
  end /\
  (is_Some (student_number (build userType f now)) <->
   ~ is_Some (school (build userType f now))) /\
  (is_Some (program (build userType f now)) <-> userType = lpu) /\
  (is_Some (program (build userType f now)) <->
   user_type (build userType f now) = "LPU Student").
Proof.
  split; [destruct insert_error; reflexivity|].
  destruct userType; simpl; rewrite ?is_Some_alt; simpl;
    repeat split; try tauto; try discriminate; intuition discriminate.
Qed.

End FormInvariants.

(** ** The export *)

Section CsvExport.
Context {RT : Runtime}.
Import JsString.

Lemma lines_from_length (cur s : string) : (1 <= length (lines_from cur s))%nat.
Proof.
  revert cur. induction s as [|c s IH]; intros cur; simpl; [lia|].
  destruct (code c =? 10); simpl; [lia | apply IH].
Qed.

(** C10.  For every view, the export is the header row followed by one row
    per record, and a row is the record's seven field values, each put
    between two double-quote characters exactly as it is, with commas in
    between: nothing in a value is escaped.  So a value holding a quote and
    a comma is not told apart from two values (two records with different
    fields have the same row), and a value holding a line feed breaks its
    row over two lines. *)
Theorem export_quotes_without_escaping :
  (forall view, csvContent view = join LF (join "," headers :: map exportRow view)) /\
  (forall record,
     exportRow record
     = DQUOTE +:+ full_name record +:+ DQUOTE +:+ "," +:+
       DQUOTE +:+ user_type record +:+ DQUOTE +:+ "," +:+
       DQUOTE +:+ id_or_institution record +:+ DQUOTE +:+ "," +:+
       DQUOTE +:+ campus record +:+ DQUOTE +:+ "," +:+
       DQUOTE +:+ text_of (program record) +:+ DQUOTE +:+ "," +:+
       DQUOTE +:+ thesis_title record +:+ DQUOTE +:+ "," +:+
       DQUOTE +:+ toLocaleDateString (new_Date (submission_date record)) +:+ DQUOTE) /\
  (exportFields quoted_name_a <> exportFields quoted_name_b /\
   exportRow quoted_name_a = exportRow quoted_name_b /\
   handleExport initialCriteria [quoted_name_a]
   = handleExport initialCriteria [quoted_name_b]) /\
  (length [two_line_title] = 1%nat /\
   (2 < length (lines (csvContent [two_line_title])))%nat).
Proof.
  split; [reflexivity|]. split.
  - intros record. unfold exportRow, exportFields.
    rewrite id_school_value, or_else_empty. simpl.
    unfold quoteField. now rewrite !append_assoc.
  - split; [split; [discriminate | split; reflexivity]|].
    split; [reflexivity|].
    unfold csvContent, exportRow, exportFields. simpl.
    unfold quoteField, lines. cbn.
    match goal with
    | |- context [lines_from ?cur ?rest] => pose proof (lines_from_length cur rest)
    end.
    lia.
Qed.

End CsvExport.

(** * The rest of the records browser *)

(** ** The campus options *)

Section CodeUnitOrder.
Import JsString.

Lemma code_inj (x y : ascii) : code x = code y -> x = y.
Proof.
  unfold code. intros H. apply N2Z.inj in H.
  rewrite <- (ascii_N_embedding x), <- (ascii_N_embedding y). now rewrite H.
Qed.

Lemma code_unit_compare_eq (a b : string) : code_unit_compare a b = 0 -> a = b.
Proof.
  revert b. induction a as [|x a IH]; intros [|y b]; simpl; try discriminate;
    [reflexivity|].
  destruct (Z.ltb_spec (code x) (code y)); [discriminate|].
  destruct (Z.ltb_spec (code y) (code x)); [discriminate|].
  intros Heq. rewrite (IH b Heq). f_equal. apply code_inj. lia.
Qed.

Lemma code_unit_compare_antisym (a b : string) :
  0 < code_unit_compare a b -> code_unit_compare b a <= 0.
Proof.
  revert b. induction a as [|x a IH]; intros [|y b]; simpl; try lia.
  destruct (Z.ltb_spec (code x) (code y)); [lia|].
  destruct (Z.ltb_spec (code y) (code x)); [lia|].
  apply IH.
Qed.

Lemma code_unit_compare_trans (a b c : string) :
  code_unit_compare a b <= 0 -> code_unit_compare b c <= 0 ->
  code_unit_compare a c <= 0.
Proof.
  revert b c. induction a as [|x a IH]; intros [|y b] [|z c]; simpl; try lia.
  destruct (Z.ltb_spec (code x) (code y)); destruct (Z.ltb_spec (code y) (code x));
    destruct (Z.ltb_spec (code y) (code z)); destruct (Z.ltb_spec (code z) (code y));
    destruct (Z.ltb_spec (code x) (code z)); destruct (Z.ltb_spec (code z) (code x));
    try lia.
  apply IH.
Qed.

End CodeUnitOrder.

Section CampusOptions.

Lemma elem_of_Set_add (s : list string) (x y : string) :
  y ∈ Set_add s x <-> y ∈ s \/ y = x.
Proof.
  unfold Set_add. case_decide.
  - split; [auto | intros [?| ->]; assumption].
  - now rewrite elem_of_app, list_elem_of_singleton.
Qed.

Lemma NoDup_Set_add (s : list string) (x : string) : NoDup s -> NoDup (Set_add s x).
Proof.
  intros Hs. unfold Set_add. case_decide; [assumption|].
  apply NoDup_app. split; [assumption|]. split; [|apply NoDup_singleton].
  intros y Hy Hyx. apply list_elem_of_singleton in Hyx. now subst.
Qed.

Lemma elem_of_foldl_Set_add (l acc : list string) (y : string) :
  y ∈ foldl Set_add acc l <-> y ∈ acc \/ y ∈ l.
Proof.
  revert acc. induction l as [|x l IH]; intros acc; simpl.
  - rewrite elem_of_nil. tauto.
  - rewrite IH, elem_of_Set_add, elem_of_cons. tauto.
Qed.

Lemma NoDup_foldl_Set_add (l acc : list string) :
  NoDup acc -> NoDup (foldl Set_add acc l).
Proof.
  revert acc. induction l as [|x l IH]; intros acc Hacc; simpl; [assumption|].
  now apply IH, NoDup_Set_add.
Qed.

(** X1.  The campus options are the campuses of the loaded records, each
    exactly once. *)
Theorem uniqueCampuses_exact (records : list ThesisSubmission) :
  NoDup (uniqueCampuses records) /\
  (forall campus_name,
     campus_name ∈ uniqueCampuses records <->
     exists record, record ∈ records /\ campus record = campus_name).
Proof.
  unfold uniqueCampuses, new_Set. split.
  - rewrite Array_sort_Permutation. apply NoDup_foldl_Set_add, NoDup_nil_2.
  - intros campus_name.
    rewrite Array_sort_Permutation, elem_of_foldl_Set_add, elem_of_nil.
    change (map campus records) with (campus <$> records).
    rewrite list_elem_of_fmap. split.
    + intros [[]|(r & -> & Hr)]. eauto.
    + intros (r & Hr & <-). right. eauto.
Qed.

(** X2.  The campus options come in strictly ascending order of their code
    units. *)
Theorem uniqueCampuses_ascending (records : list ThesisSubmission) :
  StronglySorted (fun a b => code_unit_compare a b < 0) (uniqueCampuses records).
Proof.
  assert (Hnd : NoDup (uniqueCampuses records)).
  { unfold uniqueCampuses, new_Set. rewrite Array_sort_Permutation.
    apply NoDup_foldl_Set_add, NoDup_nil_2. }
  assert (Hs : StronglySorted (fun a b => code_unit_compare a b <= 0)
                 (uniqueCampuses records)).
  { apply Sorted_StronglySorted.
    - intros a b c. apply code_unit_compare_trans.
    - apply (Array_sort_Sorted default_compare).
      intros a b. apply code_unit_compare_antisym. }
  induction Hs as [|x l Hl IH Hx]; [constructor|].
  apply NoDup_cons in Hnd as [Hnotin Hnd].
  constructor; [now apply IH|].
  rewrite Forall_forall in *. intros y Hy.
  destruct (Z.eq_dec (code_unit_compare x y) 0) as [E|E].
  - apply code_unit_compare_eq in E. now subst.
  - specialize (Hx y Hy). simpl in Hx. lia.
Qed.

End CampusOptions.

Example uniqueCampuses_sample :
  uniqueCampuses [alice; bob; zed; alice] = ["LIMA"; "Main"].
Proof. vm_compute. reflexivity. Qed.

(** ** The filter controls *)

Section FilterControls.
Context {RT : Runtime}.
Import JsString.

Lemma truthy_false_inv (s : string) : truthy s = false -> s = EmptyString.
Proof. destruct s; [reflexivity | discriminate]. Qed.

Lemma negb_eqb_false (a b : string) : negb (String.eqb a b) = false -> a = b.
Proof. intros H. apply negb_false_iff in H. now apply String.eqb_eq. Qed.

(** With no filter set, the predicates other than the campus one hold. *)
Lemma inactive_other_filters (c : Criteria) (campus_name : string)
    (record : ThesisSubmission) :
  filtersActive c = false ->
  filterCallback (setCampusFilter campus_name c) record
  = matchesCampus (setCampusFilter campus_name c) record.
Proof.
  unfold filtersActive. rewrite !orb_false_iff.
  intros (((((Hterm & Htype) & _) & Hdate) & Hstart) & Hend).
  apply truthy_false_inv in Hterm, Hdate, Hstart, Hend.
  apply negb_eqb_false in Htype.
  unfold filterCallback, matchesSearch, matchesUserType, matchesDate. simpl.
  rewrite Hterm, Htype, Hdate, Hstart, Hend. simpl.
  now rewrite andb_true_r.
Qed.

Lemma inactive_passes (c : Criteria) (record : ThesisSubmission) :
  filtersActive c = false -> filterCallback c record = true.
Proof.
  intros H. pose proof H as H'. unfold filtersActive in H'.
  rewrite !orb_false_iff in H'.
  destruct H' as (((((_ & _) & Hcampus) & _) & _) & _).
  apply negb_eqb_false in Hcampus.
  replace c with (setCampusFilter "all" c) at 1
    by (destruct c; simpl in *; now subst).
  rewrite inactive_other_filters by assumption. reflexivity.
Qed.

Lemma Array_filter_all {A} (f : A -> bool) (l : list A) :
  (forall x, f x = true) -> Array_filter f l = l.
Proof.
  intros Hf. induction l as [|x l IH]; simpl; [reflexivity|].
  now rewrite Hf, IH.
Qed.

(** X3.  While the filter banner is not shown, nothing is filtered out: the
    view is a rearrangement of all the records. *)
Theorem no_banner_shows_all (c : Criteria) (records : list ThesisSubmission) :
  filtersActive c = false ->
  filteredAndSortedRecords c records ≡ₚ records.
Proof.
  intros H. unfold filteredAndSortedRecords.
  rewrite Array_sort_Permutation, Array_filter_all; [reflexivity|].
  intros r. now apply inactive_passes.
Qed.

(** X4.  "Clear all filters" switches the banner off, leaves the sort key
    and direction as they were, and brings every record back into the view;
    clearing twice is clearing once. *)
Theorem clearAllFilters_resets (c : Criteria) (records : list ThesisSubmission) :
  filtersActive (clearAllFilters c) = false /\
  sortBy (clearAllFilters c) = sortBy c /\
  sortOrder (clearAllFilters c) = sortOrder c /\
  filteredAndSortedRecords (clearAllFilters c) records ≡ₚ records /\
  clearAllFilters (clearAllFilters c) = clearAllFilters c.
Proof.
  repeat split.
  unfold filteredAndSortedRecords.
  rewrite Array_sort_Permutation, Array_filter_all; [reflexivity|].
  intros r. now apply inactive_passes.
Qed.

(** X5.  Every campus the campus select offers, chosen with no other filter
    set, gives a view that is not empty, and whose records are all of that
    campus unless the campus is itself named "all". *)
Theorem campus_option_has_records (c : Criteria) (records : list ThesisSubmission)
    (campus_name : string) :
  filtersActive c = false ->
  campus_name ∈ uniqueCampuses records ->
  filteredAndSortedRecords (setCampusFilter campus_name c) records <> [] /\
  (campus_name <> "all" ->
   forall record,
     record ∈ filteredAndSortedRecords (setCampusFilter campus_name c) records ->
     campus record = campus_name).
Proof.
  intros Hoff Hin.
  assert (Hr : exists r, r ∈ records /\ campus r = campus_name).
  { unfold uniqueCampuses, new_Set in Hin.
    rewrite Array_sort_Permutation, elem_of_foldl_Set_add, elem_of_nil in Hin.
    destruct Hin as [[]|Hin].
    change (map campus records) with (campus <$> records) in Hin.
    apply list_elem_of_fmap in Hin as (r & -> & Hr). eauto. }
  destruct Hr as (r & Hr & Hc). split.
  - intros Hnil.
    assert (Hrin : r ∈ filteredAndSortedRecords (setCampusFilter campus_name c) records).
    { apply elem_of_filteredAndSortedRecords. split; [assumption|].
      apply filterCallback_passes. rewrite inactive_other_filters by assumption.
      unfold matchesCampus. simpl. rewrite Hc, String.eqb_refl. apply orb_true_r. }
    rewrite Hnil in Hrin. now apply elem_of_nil in Hrin.
  - intros Hne r' Hr'.
    apply elem_of_filteredAndSortedRecords in Hr' as [_ Hp].
    apply filterCallback_passes in Hp.
    rewrite inactive_other_filters in Hp by assumption.
    unfold matchesCampus in Hp. simpl in Hp.
    apply orb_true_iff in Hp as [Hp|Hp]; apply String.eqb_eq in Hp; congruence.
Qed.

(** X6.  In "Showing N of M records", N is at most M, and N is M exactly
    when every record passes the filters. *)
Theorem showing_N_of_M (c : Criteria) (records : list ThesisSubmission) :
  (length (filteredAndSortedRecords c records) <= length records)%nat /\
  (length (filteredAndSortedRecords c records) = length records <->
   Forall (passes c) records).
Proof.
  rewrite (Permutation_length (filteredAndSortedRecords_perm c records)).
  split; [apply length_filter|].
  induction records as [|r records IH]; [simpl; split; auto|].
  rewrite Forall_cons. destruct (decide (passes c r)) as [Hp|Hp].
  - rewrite filter_cons_True by assumption. simpl.
    split; [intros [= H]; split; [assumption | now apply IH]|].
    intros [_ H]. f_equal. now apply IH.
  - rewrite filter_cons_False by assumption. simpl. split; [|tauto].
    intros H. pose proof (length_filter (passes c) records). lia.
Qed.

(** X7.  The component shows the spinner, and neither the list container nor
    the Export button, exactly while it is loading, as it is when first
    mounted.  Once loading is over, the list container says "No thesis
    submissions yet" exactly when no record is loaded, and "No records
    match" exactly when records are loaded and none passes the filters; the
    Export button is enabled exactly when some loaded record passes. *)
Theorem empty_states (c : Criteria) (st : State) :
  (render c st = LoadingRecords <-> loading st = true) /\
  render c mountState = LoadingRecords /\
  ((exists disabled, render c st = RecordsPanel disabled NoSubmissionsYet) <->
   loading st = false /\ records st = []) /\
  ((exists disabled, render c st = RecordsPanel disabled NoRecordsMatch) <->
   loading st = false /\ records st <> [] /\
   forall record, record ∈ records st -> ~ passes c record) /\
  ((exists body, render c st = RecordsPanel false body) <->
   loading st = false /\
   exists record, record ∈ records st /\ passes c record).
Proof.
  assert (Hview : filteredAndSortedRecords c (records st) = [] <->
                  forall record, record ∈ records st -> ~ passes c record).
  { split.
    - intros Hnil r Hr Hp.
      assert (Hin : r ∈ filteredAndSortedRecords c (records st))
        by now apply elem_of_filteredAndSortedRecords.
      rewrite Hnil in Hin. now apply elem_of_nil in Hin.
    - intros Hnone.
      destruct (filteredAndSortedRecords c (records st)) as [|r l] eqn:E;
        [reflexivity|].
      assert (Hin : r ∈ filteredAndSortedRecords c (records st))
        by (rewrite E; apply list_elem_of_here).
      apply elem_of_filteredAndSortedRecords in Hin as [Hr Hp].
      now destruct (Hnone r Hr). }
  split; [|split; [reflexivity|]].
  { unfold render. destruct (loading st); split; (reflexivity || discriminate). }
  unfold render. destruct (loading st).
  { split; [|split]; (split; [intros [x H]; discriminate H | intros [H _]; discriminate H]). }
  destruct (filteredAndSortedRecords c (records st)) as [|v view] eqn:E; simpl.
  - destruct (records st) as [|r rest]; simpl.
    + split; [split; [auto | intros _; now exists true]|]. split.
      * split; [intros [x H]; discriminate H | intros (_ & H & _); contradiction].
      * split; [intros [x H]; discriminate H|].
        intros (_ & r & Hr & _). now apply elem_of_nil in Hr.
    + split; [split; [intros [x H]; discriminate H | intros [_ H]; discriminate H]|].
      split.
      * split; [|intros _; now exists true].
        intros _. split; [reflexivity|]. split; [discriminate | now apply Hview].
      * split; [intros [x H]; discriminate H|]. intros (_ & r' & Hr' & Hp).
        destruct (proj1 Hview eq_refl r' Hr' Hp).
  - assert (Hin : v ∈ filteredAndSortedRecords c (records st))
      by (rewrite E; apply list_elem_of_here).
    apply elem_of_filteredAndSortedRecords in Hin as [Hr Hp].
    split; [split; [intros [x H]; discriminate H|]|].
    { intros [_ Hnil]. rewrite Hnil in Hr. now apply elem_of_nil in Hr. }
    split.
    + split; [intros [x H]; discriminate H|].
      intros (_ & _ & Hnone). now destruct (Hnone v Hr).
    + split; [intros _; split; [reflexivity | eauto]|].
      intros _. now eexists.
Qed.

End FilterControls.

Lemma no_banner_shows_all_witness :
  filtersActive by_name_ascending = false /\
  filteredAndSortedRecords by_name_ascending [zed; alice; bob] ≡ₚ [zed; alice; bob].
Proof.
  split; [reflexivity|].
  apply (no_banner_shows_all by_name_ascending [zed; alice; bob]). reflexivity.
Defined.

Lemma campus_option_has_records_witness :
  filtersActive initialCriteria = false /\
  "LIMA" ∈ uniqueCampuses [alice; bob; zed] /\
  filteredAndSortedRecords (setCampusFilter "LIMA" initialCriteria) [alice; bob; zed]
    <> [].
Proof.
  assert (H1 : filtersActive initialCriteria = false) by reflexivity.
  assert (H2 : "LIMA" ∈ uniqueCampuses [alice; bob; zed])
    by (vm_compute; apply list_elem_of_here).
  split; [exact H1|]. split; [exact H2|].
  exact (proj1 (campus_option_has_records initialCriteria [alice; bob; zed] "LIMA"
                  H1 H2)).
Defined.

(** ** The lines of the export *)

Section ExportLines.
Context {RT : Runtime}.
Import JsString.

Lemma no_line_feed_app (a b : string) :
  no_line_feed (a +:+ b) = no_line_feed a && no_line_feed b.
Proof.
  induction a as [|x a IH]; [reflexivity|].
  change (no_line_feed (String x (a +:+ b))
          = no_line_feed (String x a) && no_line_feed b).
  simpl. now rewrite IH, andb_assoc.
Qed.

Lemma no_line_feed_join (sep : string) (l : list string) :
  no_line_feed sep = true -> Forall (fun s => no_line_feed s = true) l ->
  no_line_feed (join sep l) = true.
Proof.
  intros Hsep Hl. induction Hl as [|x l Hx Hl IH]; [reflexivity|].
  destruct l as [|y l]; [exact Hx|].
  change (no_line_feed (x +:+ sep +:+ join sep (y :: l)) = true).
  now rewrite !no_line_feed_app, Hx, Hsep, IH.
Qed.

Lemma lines_from_app (cur a b : string) :
  no_line_feed a = true -> lines_from cur (a +:+ b) = lines_from (cur +:+ a) b.
Proof.
  revert cur. induction a as [|x a IH]; intros cur Ha.
  - now rewrite append_empty_r.
  - simpl in Ha. apply andb_true_iff in Ha as [Hx Ha].
    change (lines_from cur (String x (a +:+ b))
            = lines_from (cur +:+ String x a) b).
    simpl. apply negb_true_iff in Hx. rewrite Hx, (IH _ Ha).
    f_equal. apply append_assoc.
Qed.

Lemma lines_from_end (cur a : string) :
  no_line_feed a = true -> lines_from cur a = [cur +:+ a].
Proof.
  intros Ha. rewrite <- (append_empty_r a) at 1.
  now rewrite lines_from_app.
Qed.

Lemma lines_from_join (cur x : string) (l : list string) :
  Forall (fun s => no_line_feed s = true) (x :: l) ->
  lines_from cur (join LF (x :: l)) = (cur +:+ x) :: l.
Proof.
  revert cur x. induction l as [|y l IH]; intros cur x Hall.
  - apply lines_from_end. now inversion Hall.
  - inversion Hall as [|? ? Hx Hrest]; subst.
    change (lines_from cur (x +:+ LF +:+ join LF (y :: l)) = (cur +:+ x) :: y :: l).
    rewrite lines_from_app by assumption.
    change (lines_from (cur +:+ x) (LF +:+ join LF (y :: l)))
      with ((cur +:+ x) :: lines_from EmptyString (join LF (y :: l))).
    now rewrite IH.
Qed.

Lemma lines_from_cur (cur cur' s : string) :
  length (lines_from cur s) = length (lines_from cur' s).
Proof.
  revert cur cur'. induction s as [|x s IH]; intros cur cur'; [reflexivity|].
  simpl. destruct (code x =? 10); simpl; [reflexivity | apply IH].
Qed.

Lemma lines_from_app_length (cur a b : string) :
  (length (lines_from cur (a +:+ b)) + 1
   = length (lines_from cur a) + length (lines_from EmptyString b))%nat.
Proof.
  revert cur. induction a as [|x a IH]; intros cur.
  - change (EmptyString +:+ b) with b. simpl.
    rewrite (lines_from_cur cur EmptyString). lia.
  - change (String x a +:+ b) with (String x (a +:+ b)). simpl.
    destruct (code x =? 10); simpl; [|apply IH].
    pose proof (IH EmptyString) as H. lia.
Qed.

Lemma lines_join_length (x : string) (l : list string) :
  (1 + length l <= length (lines_from EmptyString (join LF (x :: l))))%nat.
Proof.
  revert x. induction l as [|y l IH]; intros x.
  - apply lines_from_length.
  - change (join LF (x :: y :: l)) with (x +:+ LF +:+ join LF (y :: l)).
    specialize (IH y). set (rest := join LF (y :: l)) in *.
    pose proof (lines_from_app_length EmptyString x (LF +:+ rest)) as H.
    change (lines_from EmptyString (LF +:+ rest))
      with (EmptyString :: lines_from EmptyString rest) in H.
    pose proof (lines_from_length EmptyString x).
    cbn [length] in *. lia.
Qed.

(** X8.  The exported text has at least one line for the header and one for
    each record of the view. *)
Theorem export_has_a_line_per_record (view : list ThesisSubmission) :
  (1 + length view <= length (lines (csvContent view)))%nat.
Proof.
  unfold lines, csvContent.
  pose proof (lines_join_length (join "," headers) (map exportRow view)) as H.
  now rewrite length_map in H.
Qed.

(** X9.  When no exported field of the view holds a line feed, the lines of
    the exported text are the header followed by the records' rows, in the
    order of the view. *)
Theorem export_lines_are_rows (view : list ThesisSubmission) :
  Forall (fun record =>
            Forall (fun field => no_line_feed field = true) (exportFields record))
         view ->
  lines (csvContent view) = join "," headers :: map exportRow view.
Proof.
  intros Hview. unfold lines, csvContent.
  rewrite lines_from_join; [reflexivity|].
  constructor; [reflexivity|].
  apply Forall_fmap. eapply Forall_impl; [exact Hview|].
  intros r Hr. unfold compose. cbv beta in Hr. unfold exportRow.
  apply no_line_feed_join; [reflexivity|].
  apply Forall_fmap. eapply Forall_impl; [exact Hr|].
  intros f Hf. unfold compose. cbv beta in Hf. unfold quoteField.
  now rewrite !no_line_feed_app, Hf.
Qed.

End ExportLines.

Lemma export_lines_are_rows_witness :
  Forall (fun record =>
            Forall (fun field => no_line_feed field = true) (exportFields record))
         [alice; bob] /\
  lines (csvContent [alice; bob])
  = JsString.join "," headers :: map exportRow [alice; bob].
Proof.
  assert (H : Forall (fun record =>
                Forall (fun field => no_line_feed field = true)
                       (exportFields record)) [alice; bob])
    by (repeat constructor).
  split; [exact H|].
  exact (export_lines_are_rows [alice; bob] H).
Defined.

Example export_sample :
  lines (csvContent [alice; bob])
  = ["Name,Type,ID/School,Campus,Program,Thesis Title,Date";
     JsString.DQUOTE +:+ "Alice" +:+ JsString.DQUOTE +:+ "," +:+
     JsString.DQUOTE +:+ "LPU Student" +:+ JsString.DQUOTE +:+ "," +:+
     JsString.DQUOTE +:+ "2020-00123" +:+ JsString.DQUOTE +:+ "," +:+
     JsString.DQUOTE +:+ "Main" +:+ JsString.DQUOTE +:+ "," +:+
     JsString.DQUOTE +:+ "Computer Science" +:+ JsString.DQUOTE +:+ "," +:+
     JsString.DQUOTE +:+ "A Study" +:+ JsString.DQUOTE +:+ "," +:+
     JsString.DQUOTE +:+ "2/1/2024" +:+ JsString.DQUOTE;
     JsString.DQUOTE +:+ "Bob" +:+ JsString.DQUOTE +:+ "," +:+
     JsString.DQUOTE +:+ "Non-LPU Student" +:+ JsString.DQUOTE +:+ "," +:+
     JsString.DQUOTE +:+ "Other University" +:+ JsString.DQUOTE +:+ "," +:+
     JsString.DQUOTE +:+ "Main" +:+ JsString.DQUOTE +:+ "," +:+
     JsString.DQUOTE +:+ JsString.DQUOTE +:+ "," +:+
     JsString.DQUOTE +:+ "Other Study" +:+ JsString.DQUOTE +:+ "," +:+
     JsString.DQUOTE +:+ "1/15/2024" +:+ JsString.DQUOTE].
Proof. vm_compute. reflexivity. Qed.

(** ** The order of the view *)

Section StableSort.
Context {A : Type}.
Implicit Types (l : list A) (cmp : A -> A -> option Z).

Lemma sort_insert_stable cmp (P : A -> Prop) `{!forall x, Decision (P x)}
    (x : A) l :
  (forall a b, P a -> P b -> SortCompare cmp a b <= 0) ->
  filter P (sort_insert cmp x l) = filter P (x :: l).
Proof.
  intros Hties. induction l as [|y l IH]; [reflexivity|].
  simpl. destruct (Z.leb_spec (SortCompare cmp x y) 0) as [Hle|Hgt]; [reflexivity|].
  rewrite (filter_cons P y), IH, !(filter_cons P x), (filter_cons P y).
  destruct (decide (P x)) as [Hx|Hx]; destruct (decide (P y)) as [Hy|Hy];
    try reflexivity.
  specialize (Hties x y Hx Hy). lia.
Qed.

Lemma Array_sort_stable cmp (P : A -> Prop) `{!forall x, Decision (P x)} l :
  (forall a b, P a -> P b -> SortCompare cmp a b <= 0) ->
  filter P (Array_sort cmp l) = filter P l.
Proof.
  intros Hties. induction l as [|x l IH]; [reflexivity|].
  simpl. rewrite sort_insert_stable by assumption.
  now rewrite !filter_cons, IH.
Qed.

Lemma Sorted_on (P : A -> Prop) (R1 R2 : A -> A -> Prop) l :
  (forall a b, P a -> P b -> R1 a b -> R2 a b) ->
  Forall P l -> Sorted R1 l -> Sorted R2 l.
Proof.
  intros Himp HP Hs. induction Hs as [|x l Hs IH Hhd]; [constructor|].
  apply Forall_cons in HP as [Hx HP].
  constructor; [now apply IH|].
  destruct Hhd as [|y l Hxy]; constructor.
  apply Forall_cons in HP as [Hy _]. now apply Himp.
Qed.

Lemma consistent_on_subseteq cmp l l' :
  l' ⊆ l -> consistent_on cmp l -> consistent_on cmp l'.
Proof.
  intros Hsub (Hrefl & Hanti & Htrans). split; [|split].
  - intros a Ha. apply Hrefl. now apply Hsub.
  - intros a b Ha Hb. apply Hanti; now apply Hsub.
  - intros a b c Ha Hb Hc. apply Htrans; now apply Hsub.
Qed.

Lemma sort_insert_StronglySorted cmp (x : A) l :
  consistent_on cmp (x :: l) ->
  StronglySorted (in_order cmp) l ->
  StronglySorted (in_order cmp) (sort_insert cmp x l).
Proof.
  intros Hcons Hs. induction Hs as [|y l Hs IH Hy]; simpl.
  - repeat constructor.
  - destruct Hcons as (Hrefl & Hanti & Htrans).
    assert (Hx : x ∈ x :: y :: l) by apply list_elem_of_here.
    assert (Hyin : y ∈ x :: y :: l)
      by apply list_elem_of_further, list_elem_of_here.
    destruct (Z.leb_spec (SortCompare cmp x y) 0) as [Hle|Hgt].
    + constructor; [now constructor|]. constructor; [exact Hle|].
      rewrite Forall_forall in *. intros z Hz.
      apply (Htrans x y z);
        [exact Hx | exact Hyin | now do 2 apply list_elem_of_further
        | exact Hle | now apply Hy].
    + constructor.
      * apply IH.
        apply (consistent_on_subseteq cmp (x :: y :: l));
          [|exact (conj Hrefl (conj Hanti Htrans))].
        intros z Hz. apply elem_of_cons in Hz as [->|Hz]; [exact Hx|].
        now do 2 apply list_elem_of_further.
      * rewrite Forall_forall in *. intros z Hz.
        rewrite sort_insert_Permutation in Hz.
        apply elem_of_cons in Hz as [->|Hz]; [|now apply Hy].
        unfold in_order. apply Hanti in Hgt; [lia|exact Hyin|exact Hx].
Qed.

Lemma Array_sort_StronglySorted cmp l :
  consistent_on cmp l -> StronglySorted (in_order cmp) (Array_sort cmp l).
Proof.
  induction l as [|x l IH]; intros Hcons; simpl; [constructor|].
  apply sort_insert_StronglySorted.
  - eapply consistent_on_subseteq; [|exact Hcons].
    intros z Hz. now rewrite <- (Array_sort_Permutation cmp l) at 1.
  - apply IH. eapply consistent_on_subseteq; [|exact Hcons].
    intros z Hz. now apply list_elem_of_further.
Qed.

End StableSort.

Section ViewOrder.
Context {RT : Runtime}.

Lemma sortCallback_by_date (c : Criteria) (a b : ThesisSubmission) :
  sortBy c = "submission_date" ->
  sortCallback c a b
  = match sortOrder c with
    | asc => Date_diff (submission_time a) (submission_time b)
    | desc => neg (Date_diff (submission_time a) (submission_time b))
    end.
Proof. intros H. unfold sortCallback. now rewrite H. Qed.

Lemma sortCallback_by_date_antisym (c : Criteria) (a b : ThesisSubmission) :
  sortBy c = "submission_date" ->
  0 < SortCompare (sortCallback c) a b -> SortCompare (sortCallback c) b a <= 0.
Proof.
  intros H. unfold SortCompare. rewrite !(sortCallback_by_date c) by assumption.
  destruct (sortOrder c), (submission_time a), (submission_time b); simpl; lia.
Qed.

(** X10.  Sorted by submission date, with every loaded record's date valid,
    the view is in order of time from first to last: ascending for "Oldest
    First", descending for "Latest First". *)
Theorem view_sorted_by_date (c : Criteria) (records : list ThesisSubmission) :
  sortBy c = "submission_date" ->
  Forall (fun record => is_Some (submission_time record)) records ->
  match sortOrder c with
  | asc => StronglySorted submitted_no_later (filteredAndSortedRecords c records)
  | desc => StronglySorted (flip submitted_no_later)
              (filteredAndSortedRecords c records)
  end.
Proof.
  intros Hkey Hvalid.
  assert (Hview : Forall (fun record => is_Some (submission_time record))
                    (filteredAndSortedRecords c records)).
  { rewrite Forall_forall in *. intros r Hr. apply Hvalid.
    now apply elem_of_filteredAndSortedRecords in Hr as [Hr _]. }
  assert (Hs : Sorted (in_order (sortCallback c)) (filteredAndSortedRecords c records)).
  { apply Array_sort_Sorted. intros a b. now apply sortCallback_by_date_antisym. }
  destruct (sortOrder c) eqn:Hdir.
  - apply Sorted_StronglySorted.
    + intros x y z (tx & ty & Hx & Hy & Hxy) (ty' & tz & Hy' & Hz & Hyz).
      exists tx, tz. repeat split; try assumption. rewrite Hy in Hy'.
      injection Hy' as <-. lia.
    + eapply Sorted_on; [|exact Hview|exact Hs].
      intros a b [ta Ha] [tb Hb]. unfold in_order, SortCompare.
      rewrite sortCallback_by_date, Hdir, Ha, Hb by assumption. simpl.
      intros Hle. exists ta, tb. repeat split; try assumption. lia.
  - apply Sorted_StronglySorted.
    + intros x y z (ty & tx & Hy & Hx & Hxy) (tz & ty' & Hz & Hy' & Hyz).
      exists tz, tx. repeat split; try assumption. rewrite Hy in Hy'.
      injection Hy' as <-. lia.
    + eapply Sorted_on; [|exact Hview|exact Hs].
      intros a b [ta Ha] [tb Hb]. unfold in_order, SortCompare.
      rewrite sortCallback_by_date, Hdir, Ha, Hb by assumption. simpl.
      intros Hle. exists tb, ta. repeat split; try assumption. lia.
Qed.

Lemma sortCallback_by_date_consistent (c : Criteria) (l : list ThesisSubmission) :
  sortBy c = "submission_date" ->
  Forall (fun record => is_Some (submission_time record)) l ->
  consistent_on (sortCallback c) l.
Proof.
  intros Hkey Hvalid. rewrite Forall_forall in Hvalid.
  unfold consistent_on, SortCompare. split; [|split].
  - intros a Ha. destruct (Hvalid a Ha) as [ta Hta].
    rewrite sortCallback_by_date, Hta by assumption.
    destruct (sortOrder c); simpl; lia.
  - intros a b Ha Hb.
    destruct (Hvalid a Ha) as [ta Hta], (Hvalid b Hb) as [tb Htb].
    rewrite !(sortCallback_by_date c), Hta, Htb by assumption.
    destruct (sortOrder c); simpl; lia.
  - intros a b d Ha Hb Hd.
    destruct (Hvalid a Ha) as [ta Hta], (Hvalid b Hb) as [tb Htb],
             (Hvalid d Hd) as [td Htd].
    rewrite !(sortCallback_by_date c), Hta, Htb, Htd by assumption.
    destruct (sortOrder c); simpl; lia.
Qed.

(** X11.  When the comparator of the chosen sort is consistent on the
    records that pass the filters (as it is for the sort by date when their
    dates are valid), the view is sorted by it, no record being put before
    one the comparator places below it, and the sort is stable: among
    records none of which the comparator puts after another, the view keeps
    the order in which they were loaded. *)
Theorem view_sort_is_stable (c : Criteria) (records : list ThesisSubmission)
    (P : ThesisSubmission -> Prop) `{!forall record, Decision (P record)} :
  consistent_on (sortCallback c) (filter (passes c) records) ->
  (forall a b, P a -> P b -> SortCompare (sortCallback c) a b <= 0) ->
  StronglySorted (in_order (sortCallback c)) (filteredAndSortedRecords c records) /\
  filter P (filteredAndSortedRecords c records)
  = filter P (filter (passes c) records).
Proof.
  intros Hcons Hties. unfold filteredAndSortedRecords.
  rewrite Array_filter_passes. split.
  - now apply Array_sort_StronglySorted.
  - now apply Array_sort_stable.
Qed.

(** Records with one and the same submission date are never put after one
    another when the sort is by date. *)
Lemma same_date_ties (c : Criteria) (s : string) (a b : ThesisSubmission) :
  sortBy c = "submission_date" ->
  submission_date a = s -> submission_date b = s ->
  SortCompare (sortCallback c) a b <= 0.
Proof.
  intros Hkey Ha Hb. unfold SortCompare.
  rewrite sortCallback_by_date by assumption.
  unfold submission_time. rewrite Ha, Hb.
  destruct (sortOrder c), (new_Date s); simpl; lia.
Qed.

Lemma passes_setFilterType (v : string) (c : Criteria) (r : ThesisSubmission) :
  passes (setFilterType v c) r <->
  (matchesSearch c r = true /\ matchesCampus c r = true /\ matchesDate c r = true) /\
  matchesUserType (setFilterType v c) r = true.
Proof.
  unfold passes.
  change (matchesSearch (setFilterType v c) r) with (matchesSearch c r).
  change (matchesCampus (setFilterType v c) r) with (matchesCampus c r).
  change (matchesDate (setFilterType v c) r) with (matchesDate c r).
  tauto.
Qed.

Lemma matchesUserType_cases (c : Criteria) (r : ThesisSubmission) :
  matchesUserType (setFilterType "all" c) r = true /\
  matchesUserType (setFilterType "lpu" c) r
  = String.eqb (user_type r) "LPU Student" /\
  matchesUserType (setFilterType "non-lpu" c) r
  = String.eqb (user_type r) "Non-LPU Student".
Proof.
  unfold matchesUserType. cbn [filterType setFilterType].
  destruct (String.eqb (user_type r) "LPU Student"),
           (String.eqb (user_type r) "Non-LPU Student"); repeat split; reflexivity.
Qed.

(** X12.  The views for the categories "lpu" and "non-lpu", put together,
    hold the records of the view for "all" whose type is LPU Student or
    Non-LPU Student, each as many times as there, the other criteria being
    the same. *)
Theorem category_views_partition (c : Criteria) (records : list ThesisSubmission) :
  filteredAndSortedRecords (setFilterType "lpu" c) records ++
  filteredAndSortedRecords (setFilterType "non-lpu" c) records
  ≡ₚ filter (fun record => user_type record = "LPU Student" \/
                           user_type record = "Non-LPU Student")
       (filteredAndSortedRecords (setFilterType "all" c) records).
Proof.
  rewrite !filteredAndSortedRecords_perm.
  induction records as [|r records IH]; [reflexivity|].
  assert (Hl : passes (setFilterType "lpu" c) r <->
               passes (setFilterType "all" c) r /\ user_type r = "LPU Student").
  { rewrite !passes_setFilterType.
    destruct (matchesUserType_cases c r) as (-> & -> & _).
    rewrite String.eqb_eq. tauto. }
  assert (Hn : passes (setFilterType "non-lpu" c) r <->
               passes (setFilterType "all" c) r /\ user_type r = "Non-LPU Student").
  { rewrite !passes_setFilterType.
    destruct (matchesUserType_cases c r) as (-> & _ & ->).
    rewrite String.eqb_eq. tauto. }
  rewrite !(filter_cons _ r).
  destruct (decide (passes (setFilterType "all" c) r)) as [Ha|Ha].
  - rewrite (filter_cons _ r).
    destruct (decide (user_type r = "LPU Student")) as [E1|E1];
      destruct (decide (user_type r = "Non-LPU Student")) as [E2|E2];
      repeat case_decide; try tauto; try congruence.
    + simpl. now rewrite IH.
    + rewrite <- Permutation_middle. now rewrite IH.
  - repeat case_decide; try tauto.
Qed.

End ViewOrder.

Lemma view_sorted_by_date_witness :
  sortBy initialCriteria = "submission_date" /\
  Forall (fun record => is_Some (submission_time record)) [bob; alice; zed] /\
  StronglySorted (flip submitted_no_later)
    (filteredAndSortedRecords initialCriteria [bob; alice; zed]).
Proof.
  assert (H : Forall (fun record => is_Some (submission_time record))
                [bob; alice; zed])
    by (repeat constructor; eexists; reflexivity).
  split; [reflexivity|]. split; [exact H|].
  exact (view_sorted_by_date initialCriteria [bob; alice; zed] eq_refl H).
Defined.

Lemma view_sort_is_stable_witness :
  consistent_on (sortCallback initialCriteria)
    (filter (passes initialCriteria) [zed; alice; two_line_title]) /\
  (forall a b,
     submission_date a = "2024-01-20T10:00:00.000Z" ->
     submission_date b = "2024-01-20T10:00:00.000Z" ->
     SortCompare (sortCallback initialCriteria) a b <= 0) /\
  StronglySorted (in_order (sortCallback initialCriteria))
    (filteredAndSortedRecords initialCriteria [zed; alice; two_line_title]) /\
  filter (fun record => submission_date record = "2024-01-20T10:00:00.000Z")
    (filteredAndSortedRecords initialCriteria [zed; alice; two_line_title])
  = filter (fun record => submission_date record = "2024-01-20T10:00:00.000Z")
      (filter (passes initialCriteria) [zed; alice; two_line_title]).
Proof.
  assert (Hc : consistent_on (sortCallback initialCriteria)
                 (filter (passes initialCriteria) [zed; alice; two_line_title])).
  { apply sortCallback_by_date_consistent; [reflexivity|].
    apply Forall_forall. intros r Hr.
    apply list_elem_of_filter in Hr as [_ Hr].
    repeat (apply elem_of_cons in Hr as [->|Hr]; [eexists; reflexivity|]).
    now apply elem_of_nil in Hr. }
  assert (H : forall a b,
             submission_date a = "2024-01-20T10:00:00.000Z" ->
             submission_date b = "2024-01-20T10:00:00.000Z" ->
             SortCompare (sortCallback initialCriteria) a b <= 0).
  { intros a b Ha Hb. unfold SortCompare, sortCallback, new_Date. simpl.
    rewrite Ha, Hb. vm_compute. discriminate. }
  split; [exact Hc|]. split; [exact H|].
  exact (view_sort_is_stable initialCriteria [zed; alice; two_line_title]
           (fun record => submission_date record = "2024-01-20T10:00:00.000Z")
           Hc H).
Defined.

Example stable_sort_sample :
  map id (filteredAndSortedRecords initialCriteria [zed; alice; two_line_title])
  = ["1"; "3"; "5"].
Proof. vm_compute. reflexivity. Qed.

(** ** The store traffic of a delete *)

(** X13.  A delete reaches the store only for an actor who is not a Reader
    and who confirms; it then issues one delete, for the id it was given,
    and re-reads the table only after a delete that succeeded.  The record
    list changes only through that re-read: it becomes the rows read ([] for
    null) when the re-read succeeds, and stays as it was otherwise. *)
Theorem delete_store_traffic (w : World) (userRole : option Role) (id : string)
    (st : State) :
  filter (fun e => is_store_call e = true) (handleDelete w userRole id st).2
  = match userRole with
    | Some Reader => []
    | _ =>
        if confirm_reply w then
          if delete_error w then [store_delete "thesis_submissions" "id" id]
          else [store_delete "thesis_submissions" "id" id;
                store_select "thesis_submissions" "submission_date" false]
        else []
    end /\
  records (handleDelete w userRole id st).1
  = match userRole with
    | Some Reader => records st
    | _ =>
        if confirm_reply w && negb (delete_error w) then
          match select_reply w with
          | Some data => default [] data
          | None => records st
          end
        else records st
    end.
Proof.
  destruct userRole as [[|]|]; [| split; reflexivity |];
    unfold handleDelete, fetchRecords;
    destruct (confirm_reply w), (delete_error w); simpl;
    try (split; reflexivity);
    destruct (select_reply w) as [[[|r l]|]|]; split; reflexivity.
Qed.

(** * The system users tab *)

Section SystemUsersFacts.
Import SystemUsers.

Lemma includes_empty (s : string) : JsString.includes s EmptyString = true.
Proof. destruct s; reflexivity. Qed.

(** X14.  The users shown are, in the order they were loaded, the users
    whose name or email holds the search term as a case-insensitive
    substring, the lower-cased term occurring in the lower-cased name or
    email; with the search box empty every user is shown. *)
Theorem filteredUsers_exact (st : State) :
  filteredUsers st `sublist_of` users st /\
  (forall user,
     user ∈ filteredUsers st <->
     user ∈ users st /\
     (ci_substring (searchTerm st) (name user) \/
      ci_substring (searchTerm st) (email user))) /\
  (searchTerm st = EmptyString -> filteredUsers st = users st).
Proof.
  unfold filteredUsers. split; [|split].
  - rewrite Array_filter_filter. apply sublist_filter.
  - intros user. rewrite Array_filter_filter, list_elem_of_filter.
    rewrite orb_true_iff, !includes_ci. tauto.
  - intros ->. apply Array_filter_all. intros user.
    change (JsString.toLowerCase EmptyString) with EmptyString.
    now rewrite includes_empty.
Qed.

(** X15.  The summary cards add up: the active and the inactive users are
    all the users. *)
Theorem summary_cards_add_up (st : State) :
  (activeUsers st + inactiveUsers st = totalUsers st)%nat.
Proof.
  unfold activeUsers, inactiveUsers, totalUsers.
  induction (users st) as [|u l IH]; [reflexivity|].
  simpl. destruct (status u); simpl; lia.
Qed.

(** X16.  With the name or the email empty, or with nobody signed in, adding
    a user does nothing but show one error notice: the state is as it was and
    neither the authentication service nor the store is called. *)
Theorem handleAddUser_guard (w : World) (currentUser : option string) (st : State) :
  newUser.name (newUser st) = EmptyString \/
  newUser.email (newUser st) = EmptyString \/
  currentUser = None ->
  (handleAddUser w currentUser st).1 = st /\
  filter (fun e => is_remote e = true) (handleAddUser w currentUser st).2 = [] /\
  exists description,
    (handleAddUser w currentUser st).2 = [toast "Error" description true].
Proof.
  intros H. unfold handleAddUser.
  destruct (newUser.name (newUser st)) as [|a n] eqn:Hn;
    [simpl; repeat split; eauto|].
  destruct (newUser.email (newUser st)) as [|b e] eqn:He;
    [simpl; repeat split; eauto|].
  destruct currentUser as [uid|]; [|simpl; repeat split; eauto].
  destruct H as [H|[H|H]]; discriminate.
Qed.

(** X17.  Past the guard, a user is added by a sign-up first; the row is
    inserted only when the sign-up returned a user, under that user's id and
    with the form's name, email, role and status; an insert that comes back
    with an error is followed by the deletion of the account just created,
    and only an insert that succeeded is followed by a re-read of the
    users. *)
Theorem handleAddUser_remote_calls (w : World) (uid0 : string) (st : State) :
  newUser.name (newUser st) <> EmptyString ->
  newUser.email (newUser st) <> EmptyString ->
  filter (fun e => is_remote e = true) (handleAddUser w (Some uid0) st).2
  = auth_signUp (newUser.email (newUser st)) "TempPassword123!"
      (newUser.name (newUser st)) ::
    match signUp_reply w with
    | signUp_user uid =>
        insert_user uid (newUser.name (newUser st)) (newUser.email (newUser st))
          (newUser.role (newUser st)) (newUser.status (newUser st)) ::
        match insert_reply w with
        | insert_throws => []
        | insert_error _ => [auth_admin_deleteUser uid]
        | insert_ok => [select_users]
        end
    | _ => []
    end.
Proof.
  intros Hn He. unfold handleAddUser.
  rewrite (truthy_true _ Hn), (truthy_true _ He). simpl.
  destruct (signUp_reply w) as [| m | | uid]; try reflexivity.
  destruct (insert_reply w) as [| m |]; try reflexivity.
  - destruct (admin_deleteUser_throws w); reflexivity.
  - unfold fetchUsers. destruct (select_reply w); reflexivity.
Qed.

(** X18.  Adding a user changes the state only when the sign-up returned a
    user and the insert succeeded: the form is then closed and blank and the
    list is what the re-read returned, or what it was if the re-read failed.
    Every other outcome leaves the form as typed and the list as loaded. *)
Theorem handleAddUser_outcome (w : World) (currentUser : option string) (st : State) :
  (newUser.name (newUser st) <> EmptyString /\
   newUser.email (newUser st) <> EmptyString /\
   is_Some currentUser /\
   (exists uid, signUp_reply w = signUp_user uid) /\
   insert_reply w = insert_ok ->
   (handleAddUser w currentUser st).1
   = {| searchTerm := searchTerm st; showAddUser := false;
        users := match select_reply w with
                 | select_data data => default [] data
                 | _ => users st
                 end;
        loading := false; newUser := blankUser |}) /\
  (~ (newUser.name (newUser st) <> EmptyString /\
      newUser.email (newUser st) <> EmptyString /\
      is_Some currentUser /\
      (exists uid, signUp_reply w = signUp_user uid) /\
      insert_reply w = insert_ok) ->
   (handleAddUser w currentUser st).1 = st).
Proof.
  unfold handleAddUser. split.
  - intros (Hn & He & [cu ->] & [uid Hs] & Hi).
    rewrite (truthy_true _ Hn), (truthy_true _ He), Hs, Hi. simpl.
    unfold fetchUsers. destruct (select_reply w); reflexivity.
  - intros Hnot.
    destruct (newUser.name (newUser st)) as [|a n] eqn:Hn; [reflexivity|].
    destruct (newUser.email (newUser st)) as [|b e] eqn:He; [reflexivity|].
    destruct currentUser as [cu|]; [|reflexivity]. simpl.
    destruct (signUp_reply w) as [| m | | uid] eqn:Hs; try reflexivity.
    destruct (insert_reply w) as [| m |] eqn:Hi; try reflexivity.
    + destruct (admin_deleteUser_throws w); reflexivity.
    + exfalso. apply Hnot. repeat split; eauto; discriminate.
Qed.

(** X19.  Deleting a user makes no remote call when the confirmation is
    declined; otherwise it issues one delete for the id it was given, and
    re-reads the users only after a delete that succeeded.  The list changes
    only through that re-read. *)
Theorem handleDeleteUser_traffic (w : World) (userId : string) (st : State) :
  filter (fun e => is_remote e = true) (handleDeleteUser w userId st).2
  = (if confirm_reply w then
       delete_user userId ::
       match delete_reply w with delete_ok => [select_users] | _ => [] end
     else []) /\
  users (handleDeleteUser w userId st).1
  = (if confirm_reply w then
       match delete_reply w, select_reply w with
       | delete_ok, select_data data => default [] data
       | _, _ => users st
       end
     else users st).
Proof.
  unfold handleDeleteUser, fetchUsers.
  destruct (confirm_reply w); [|split; reflexivity]. simpl.
  destruct (delete_reply w); try (split; reflexivity).
  destruct (select_reply w); split; reflexivity.
Qed.

End SystemUsersFacts.

Lemma handleAddUser_guard_witness :
  (SystemUsers.newUser.name (SystemUsers.newUser blank_form_state) = EmptyString \/
   SystemUsers.newUser.email (SystemUsers.newUser blank_form_state) = EmptyString \/
   Some "admin-1" = None) /\
  (SystemUsers.handleAddUser insert_refused (Some "admin-1") blank_form_state).1
  = blank_form_state.
Proof.
  assert (H : SystemUsers.newUser.name (SystemUsers.newUser blank_form_state)
              = EmptyString \/
              SystemUsers.newUser.email (SystemUsers.newUser blank_form_state)
              = EmptyString \/
              Some "admin-1" = (None : option string)) by (left; reflexivity).
  split; [exact H|].
  exact (proj1 (handleAddUser_guard insert_refused (Some "admin-1")
                  blank_form_state H)).
Defined.

Lemma handleAddUser_remote_calls_witness :
  SystemUsers.newUser.name (SystemUsers.newUser filled_form_state) <> EmptyString /\
  SystemUsers.newUser.email (SystemUsers.newUser filled_form_state) <> EmptyString /\
  filter (fun e => SystemUsers.is_remote e = true)
    (SystemUsers.handleAddUser insert_refused (Some "admin-1") filled_form_state).2
  = [SystemUsers.auth_signUp "ann@lpu.edu" "TempPassword123!" "Ann";
     SystemUsers.insert_user "u-1" "Ann" "ann@lpu.edu" Admin SystemUsers.Active;
     SystemUsers.auth_admin_deleteUser "u-1"].
Proof.
  assert (H1 : SystemUsers.newUser.name (SystemUsers.newUser filled_form_state)
               <> EmptyString) by discriminate.
  assert (H2 : SystemUsers.newUser.email (SystemUsers.newUser filled_form_state)
               <> EmptyString) by discriminate.
  split; [exact H1|]. split; [exact H2|].
  exact (handleAddUser_remote_calls insert_refused "admin-1" filled_form_state H1 H2).
Defined.

(** * The dashboard *)

Section DashboardFacts.
Import AdminDashboard.

Ltac by_cases :=
  repeat split; intros;
  repeat match goal with
         | H : _ /\ _ |- _ => destruct H
         | H : _ \/ _ |- _ => destruct H
         | H : exists _, _ |- _ => destruct H
         end;
  try discriminate; try congruence; eauto 10.

(** X20.  From the state the dashboard mounts with, the role lookup ends with
    loading off; it grants Admin exactly when a user is signed in and either
    the active [system_users] row says Admin or there is no such row and the
    profile's role is "admin"; it leaves no role, so that the page shown is
    Access Denied, exactly when nobody is signed in or the [system_users]
    query comes back with an error; a query that throws gives Reader. *)
Theorem fetchUserRole_outcome (w : World) (user : option string) (st : State) :
  userRole st = None ->
  loading (fetchUserRole w user st).1 = false /\
  (userRole (fetchUserRole w user st).1 = Some Admin <->
   is_Some user /\
   (role_reply w = role_row Admin \/
    (role_reply w = role_none /\
     exists error, profile_reply w = profile_result error (Some (Some "admin"))))) /\
  (render (fetchUserRole w user st).1 = AccessDenied <->
   user = None \/ role_reply w = role_error) /\
  (is_Some user ->
   role_reply w = role_throws \/
   (role_reply w = role_none /\ profile_reply w = profile_throws) ->
   userRole (fetchUserRole w user st).1 = Some Reader).
Proof.
  intros Hnone. unfold fetchUserRole, role_fallback, render, is_Some.
  destruct user as [uid|];
    [destruct (role_reply w) as [| | |[|]] eqn:Hr;
     [| |destruct (profile_reply w) as [|error [[r|]|]] eqn:Hp;
         [| destruct (String.eqb_spec r "admin") as [->|Hne] | |] | |]|];
    simpl; rewrite ?Hnone; simpl; by_cases.
Qed.

Lemma elem_of_tabs (tab : Tab) :
  tab ∈ tabs ->
  tab = {| id := statistics; label := "Statistics"; requiredRole := None |} \/
  tab = {| id := records; label := "User Records"; requiredRole := None |} \/
  tab = {| id := thesis; label := "Thesis Data"; requiredRole := Some Admin |} \/
  tab = {| id := users; label := "System Users"; requiredRole := Some Admin |}.
Proof.
  unfold tabs. rewrite !elem_of_cons, elem_of_nil. tauto.
Qed.

(** X21.  The navigation offers a tab exactly when opening it shows the
    tab's content and not the access-restricted notice; and the thesis data
    and the system users are shown to no one but an Admin. *)
Theorem tabs_match_content (userRole : option Role) :
  (forall tab,
     tab ∈ tabs ->
     (tab ∈ availableTabs userRole <->
      renderContent (id tab) userRole <> AccessRestricted)) /\
  (forall activeTab,
     renderContent activeTab userRole = ThesisData \/
     renderContent activeTab userRole = SystemUsers ->
     userRole = Some Admin).
Proof.
  split.
  - intros tab Htab.
    apply elem_of_tabs in Htab as [-> | [-> | [-> | ->]]];
      destruct userRole as [[|]|];
      unfold availableTabs, renderContent, currentTab, tabs; simpl;
      rewrite ?elem_of_cons, ?elem_of_nil; by_cases.
  - intros activeTab. destruct activeTab, userRole as [[|]|]; vm_compute;
      intros [H|H]; try discriminate; reflexivity.
Qed.

Ltac pick_tab :=
  first
    [ eexists; split; [apply list_elem_of_here | reflexivity]
    | eexists; split; [apply list_elem_of_further, list_elem_of_here | reflexivity]
    | eexists; split;
      [apply list_elem_of_further, list_elem_of_further, list_elem_of_here
      | reflexivity]
    | eexists; split;
      [apply list_elem_of_further, list_elem_of_further, list_elem_of_further,
             list_elem_of_here
      | reflexivity] ].

(** X22.  The redirect leaves an Admin where they are, and takes any other
    signed-in role to a tab that the navigation offers and whose content is
    shown; running it again changes nothing. *)
Theorem redirect_lands_on_offered_tab (role : Role) (activeTab : TabType) :
  redirect (Some Admin) activeTab = activeTab /\
  renderContent (redirect (Some role) activeTab) (Some role) <> AccessRestricted /\
  (exists tab, tab ∈ availableTabs (Some role) /\
               id tab = redirect (Some role) activeTab) /\
  redirect (Some role) (redirect (Some role) activeTab)
  = redirect (Some role) activeTab.
Proof.
  destruct role, activeTab;
    unfold redirect, renderContent, availableTabs, currentTab, tabs; simpl;
    repeat split; try discriminate; pick_tab.
Qed.

End DashboardFacts.

Lemma fetchUserRole_outcome_witness :
  AdminDashboard.userRole AdminDashboard.initialState = None /\
  AdminDashboard.userRole
    (AdminDashboard.fetchUserRole admin_by_profile (Some "u-9")
       AdminDashboard.initialState).1 = Some Admin.
Proof.
  split; [reflexivity|].
  apply (proj2 (proj1 (proj2 (fetchUserRole_outcome admin_by_profile (Some "u-9")
                                AdminDashboard.initialState eq_refl)))).
  split; [eexists; reflexivity|].
  right. split; [reflexivity|]. eexists. reflexivity.
Defined.

(** * The thesis data tab *)

Section ThesisDataFacts.
Import ThesisData.

Lemma field_includes_spec (field : option string) (term : string) :
  field_includes field term = true <->
  exists s, field = Some s /\ ci_substring term s.
Proof.
  destruct field as [s|]; simpl.
  - rewrite includes_ci. split; [eauto | intros (s' & [= <-] & H); exact H].
  - split; [discriminate | intros (s & H & _); discriminate].
Qed.

Lemma some_author_includes_spec (authors : option (list string)) (term : string) :
  some_author_includes authors term = true <->
  exists l author, authors = Some l /\ author ∈ l /\ ci_substring term author.
Proof.
  destruct authors as [l|]; simpl.
  - rewrite existsb_exists. split.
    + intros (a & Ha & H). exists l, a.
      rewrite list_elem_of_In, <- includes_ci. auto.
    + intros (l' & a & [= <-] & Ha & H). exists a.
      rewrite <- list_elem_of_In, includes_ci. auto.
  - split; [discriminate | intros (l & a & H & _); discriminate].
Qed.

(** X23.  The theses shown are, in the order they were loaded, those whose
    title, department or barcode, or one of whose authors, holds the search
    term as a case-insensitive substring, the lower-cased term occurring in
    the lower-cased text; a field that is null matches nothing. *)
Theorem filteredTheses_exact (searchTerm : string) (thesesData : list ThesisRecord) :
  filteredTheses searchTerm thesesData `sublist_of` thesesData /\
  (forall thesis,
     thesis ∈ filteredTheses searchTerm thesesData <->
     thesis ∈ thesesData /\
     ((exists s, thesis_title thesis = Some s /\ ci_substring searchTerm s) \/
      (exists l author, authors thesis = Some l /\ author ∈ l /\
                        ci_substring searchTerm author) \/
      (exists s, department thesis = Some s /\ ci_substring searchTerm s) \/
      (exists s, barcode thesis = Some s /\ ci_substring searchTerm s))).
Proof.
  unfold filteredTheses. rewrite Array_filter_filter. split.
  - apply sublist_filter.
  - intros thesis. rewrite list_elem_of_filter, !orb_true_iff.
    rewrite !field_includes_spec, some_author_includes_spec. tauto.
Qed.

End ThesisDataFacts.

(** * The login dialog *)

Section LoginFacts.
Import LoginModal.

(** X24.  A failed sign-in always tells the user something: the notice's
    description is never empty, and an error message that names none of the
    three known causes is shown as it is.  The failure keeps the typed email
    and password and does not close the dialog; either way loading ends. *)
Theorem login_failure_notice (message : option string) (st : State) :
  errorMessage message <> EmptyString /\
  (forall m,
     message = Some m -> m <> EmptyString ->
     JsString.includes m "Invalid login credentials" = false ->
     JsString.includes m "Email not confirmed" = false ->
     JsString.includes m "User not found" = false ->
     errorMessage message = m) /\
  (toast "Login Failed" (errorMessage message) true
   ∈ (handleSubmit (Some message) st).2) /\
  (onClose ∉ (handleSubmit (Some message) st).2) /\
  ((handleSubmit (Some message) st).1
   = {| email := email st; password := password st; loading := false |}) /\
  loading (handleSubmit None st).1 = false.
Proof.
  split; [|split; [|split; [|split; [|split]]]].
  - unfold errorMessage. destruct message as [[|a m]|]; try discriminate.
    simpl JsString.truthy. cbv iota.
    repeat match goal with |- context [if ?b then _ else _] => destruct b end;
      discriminate.
  - intros m -> Hm H1 H2 H3. unfold errorMessage.
    now rewrite (truthy_true _ Hm), H1, H2, H3.
  - simpl. rewrite !elem_of_cons. auto 10.
  - simpl. rewrite !elem_of_cons, elem_of_nil.
    intros H. repeat destruct H as [H|H]; try discriminate. exact H.
  - reflexivity.
  - reflexivity.
Qed.

(** X25.  A key press starts a sign-in exactly when the key is Enter and
    neither the email nor the password is empty; any other key press does
    nothing at all. *)
Theorem handleKeyPress_submits (key : string) (reply : option (option string))
    (st : State) :
  (signIn (email st) (password st) ∈ (handleKeyPress key reply st).2 <->
   key = "Enter" /\ email st <> EmptyString /\ password st <> EmptyString) /\
  (~ (key = "Enter" /\ email st <> EmptyString /\ password st <> EmptyString) ->
   handleKeyPress key reply st = (st, [])).
Proof.
  unfold handleKeyPress.
  destruct (String.eqb_spec key "Enter") as [->|Hk]; simpl.
  - destruct (email st) as [|a e] eqn:He, (password st) as [|b p] eqn:Hp; simpl.
    + split; [|reflexivity]. rewrite elem_of_nil. tauto.
    + split; [|reflexivity]. rewrite elem_of_nil. tauto.
    + split; [|reflexivity]. rewrite elem_of_nil. tauto.
    + split.
      * split; [intros _; repeat split; discriminate|]. intros _.
        unfold handleSubmit. rewrite He, Hp.
        destruct reply; simpl; rewrite !elem_of_cons; auto.
      * intros H. exfalso. apply H. repeat split; discriminate.
  - split; [|reflexivity]. rewrite elem_of_nil. tauto.
Qed.

End LoginFacts.

(** * The state of the public form *)

Section FormStateFacts.
Import SubmissionForm FormState.

Lemma six_fields_change (field value : string) (fd : gmap string string) :
  six_fields fd -> six_fields (handleInputChange field value fd).
Proof.
  unfold six_fields, handleInputChange.
  intros H. repeat split;
    match goal with
    | |- is_Some (_ !! ?k) =>
        destruct (decide (field = k)) as [->|Hne];
        [rewrite lookup_insert_eq; eauto
        | rewrite lookup_insert_ne by exact Hne; tauto]
    end.
Qed.

Lemma six_fields_read (fd : gmap string string) : six_fields fd -> is_Some (read fd).
Proof.
  intros ([a Ha] & [b Hb] & [c Hc] & [d Hd] & [e He] & [f Hf]).
  unfold read. rewrite Ha, Hb, Hc, Hd, He, Hf. simpl. eauto.
Qed.

(** X26.  Whatever changes the inputs make, with whatever keys, the form
    object keeps its six properties set, so that a submit always finds a
    value, possibly empty, for each of them; before any change all six are
    empty. *)
Theorem form_keeps_its_fields (changes : list (string * string)) :
  six_fields (after_changes changes initialFormData) /\
  is_Some (read (after_changes changes initialFormData)) /\
  read initialFormData
  = Some {| formData.fullName := EmptyString; formData.studentNumber := EmptyString;
            formData.school := EmptyString; formData.campus := EmptyString;
            formData.program := EmptyString; formData.thesisTitle := EmptyString |}.
Proof.
  assert (H : forall fd, six_fields fd -> six_fields (after_changes changes fd)).
  { unfold after_changes. induction changes as [|[k v] changes IH]; intros fd Hfd;
      [exact Hfd|]. simpl. now apply IH, six_fields_change. }
  assert (H0 : six_fields initialFormData).
  { unfold six_fields, initialFormData. repeat split; vm_compute; eauto. }
  split; [now apply H|]. split; [now apply six_fields_read, H|].
  vm_compute. reflexivity.
Qed.

(** X27.  What is typed into the student number / school input is what the
    input then shows and what a submit under the same category inserts, in
    the category's own column, the other column being null; the other five
    properties of the form are as they were. *)
Theorem typed_id_is_inserted (userType : UserType) (value now : string)
    (fd : gmap string string) (f : formData.t) :
  read (idInputChange userType value fd) = Some f ->
  idInputValue userType (idInputChange userType value fd) = Some value /\
  match userType with
  | lpu => student_number (build userType f now) = Some value /\
           school (build userType f now) = None
  | non_lpu => school (build userType f now) = Some value /\
               student_number (build userType f now) = None
  end /\
  (forall key, key <> idField userType ->
               idInputChange userType value fd !! key = fd !! key).
Proof.
  unfold idInputChange, idInputValue, handleInputChange. intros Hread.
  split; [apply lookup_insert_eq|]. split.
  - unfold read in Hread.
    destruct userType; simpl in *;
      repeat match type of Hread with
             | context [<[?k := _]> _ !! ?k] => rewrite lookup_insert_eq in Hread
             | context [<[?k := _]> _ !! ?k'] =>
                 rewrite (lookup_insert_ne _ k k') in Hread by discriminate
             end;
      repeat match type of Hread with
             | context [fd !! ?k] => destruct (fd !! k); simpl in Hread;
                                     [|discriminate]
             end;
      injection Hread as <-; split; reflexivity.
  - intros key Hkey. now rewrite lookup_insert_ne.
Qed.

End FormStateFacts.

Lemma typed_id_is_inserted_witness :
  FormState.read (FormState.idInputChange SubmissionForm.lpu "2020-00123"
                    FormState.initialFormData)
  = Some {| SubmissionForm.formData.fullName := EmptyString;
            SubmissionForm.formData.studentNumber := "2020-00123";
            SubmissionForm.formData.school := EmptyString;
            SubmissionForm.formData.campus := EmptyString;
            SubmissionForm.formData.program := EmptyString;
            SubmissionForm.formData.thesisTitle := EmptyString |} /\
  FormState.idInputValue SubmissionForm.lpu
    (FormState.idInputChange SubmissionForm.lpu "2020-00123" FormState.initialFormData)
  = Some "2020-00123".
Proof.
  assert (H : FormState.read
                (FormState.idInputChange SubmissionForm.lpu "2020-00123"
                   FormState.initialFormData)
              = Some {| SubmissionForm.formData.fullName := EmptyString;
                        SubmissionForm.formData.studentNumber := "2020-00123";
                        SubmissionForm.formData.school := EmptyString;
                        SubmissionForm.formData.campus := EmptyString;
                        SubmissionForm.formData.program := EmptyString;
                        SubmissionForm.formData.thesisTitle := EmptyString |})
    by (vm_compute; reflexivity).
  split; [exact H|].
  exact (proj1 (typed_id_is_inserted SubmissionForm.lpu "2020-00123"
                  "2024-02-01T08:30:15.250Z" FormState.initialFormData _ H)).
Defined.

(** * The sort select *)

Section SortSelect.
Context {RT : Runtime}.

(** X28.  Choosing another sort key or direction changes the order of the
    view and nothing else: the records shown are the same, each as many
    times. *)
Theorem sort_changes_order_only (c : Criteria) (key : string) (order : SortOrder)
    (records : list ThesisSubmission) :
  filteredAndSortedRecords (setSortOrder order (setSortBy key c)) records
  ≡ₚ filteredAndSortedRecords c records.
Proof.
  unfold filteredAndSortedRecords. rewrite !Array_sort_Permutation.
  change (filterCallback (setSortOrder order (setSortBy key c)))
    with (filterCallback c).
  reflexivity.
Qed.

End SortSelect.
